(** * durable-stream-client: the session layer of [src/main.ts]

    A shallow embedding of the [DurableStreamClient] class: the constructor,
    the connect loop [init], the message handler installed by
    [setupListeners], [publish] with its bounded wait [canSend], and the
    publish-derived calls.  The class is asynchronous, single-threaded code;
    every definition below is one run-to-completion segment of it (the code
    between two [await]s), or a call run without interleaving.

    Conventions.
    - JavaScript numbers are modelled by exact rationals ([Qc]); rounding of
      IEEE doubles is not modelled, and what is stated of request ids is
      their order and their place in the registry, not their digits.
    - What the code does to the outside world ([ws.send], [console.log],
      calling the subscription handler, resolving a promise) is returned as
      a list of [effect]s, oldest first.
    - [Number_toString] (the platform's conversion of a number to a
      property key) is a parameter, the one field of the class [Platform]:
      nothing is assumed about it. *)

From Stdlib Require Import QArith Qcanon.
From stdpp Require Import base option list sorting strings pretty gmap.

Local Open Scope string_scope.
Local Open Scope list_scope.
Local Open Scope Qc_scope.
Local Set Warnings "-register-all".

(** ** JSON values and the JavaScript operations the class applies to them *)

(** The result of [JSON.parse]: objects keep their fields as an association
    list in source order. *)
Inductive json : Type :=
  | JNull
  | JBool (b : bool)
  | JNum (n : Qc)
  | JStr (s : string)
  | JArr (items : list json)
  | JObj (fields : list (string * json)).

(** A JavaScript value that may be [undefined]. *)
Abbreviation value := (option json).
Abbreviation undefined := (@None json).

(** Truthiness, as tested by [if (json.pub)]: [undefined], [null], [false],
    [0] and the empty string are falsy. *)
Definition ToBoolean (v : value) : bool :=
  match v with
  | None => false
  | Some JNull => false
  | Some (JBool b) => b
  | Some (JNum n) => bool_decide (n ≠ 0)
  | Some (JStr s) => bool_decide (s ≠ EmptyString)
  | Some (JArr _) => true
  | Some (JObj _) => true
  end.

Fixpoint assoc (k : string) (l : list (string * json)) : value :=
  match l with
  | [] => None
  | (k', v) :: l' => if decide (k = k') then Some v else assoc k l'
  end.

Fixpoint remove_key (k : string) (l : list (string * json)) : list (string * json) :=
  match l with
  | [] => []
  | (k', v) :: l' =>
      if decide (k = k') then remove_key k l' else (k', v) :: remove_key k l'
  end.

(** [json.k] on a value that is not [null], for the field names the class
    reads ([pub], [cMsgId], [sMsgId], [sequence]): only an object can hold
    them. *)
Definition Get (j : json) (k : string) : value :=
  match j with
  | JObj fields => assoc k fields
  | _ => None
  end.

(** [delete json.k]. *)
Definition Delete (j : json) (k : string) : json :=
  match j with
  | JObj fields => JObj (remove_key k fields)
  | _ => j
  end.

(** An object literal as [JSON.stringify] writes it: a field whose value is
    [undefined] is left out. *)
Fixpoint object (l : list (string * value)) : json :=
  match l with
  | [] => JObj []
  | (k, Some v) :: l' =>
      match object l' with JObj fs => JObj ((k, v) :: fs) | j => j end
  | (_, None) :: l' => object l'
  end.

(** What [JSON.parse(msg.data)] makes of a received payload: it throws a
    [SyntaxError] on text that is not JSON, and returns the value
    otherwise.  A payload is represented by that outcome. *)
Inductive payload : Type :=
  | Malformed (raw : string)
  | Text (j : json).

Definition JSON_parse (data : payload) : option json :=
  match data with
  | Malformed _ => None
  | Text j => Some j
  end.

Inductive error : Type :=
  | SyntaxError
  | TypeError
  | Error (message : string).

Inductive completion : Type :=
  | Done
  | Threw (e : error).

(** ** The session object *)

(** The subscription handler passed to [subscribe], known by its identity. *)
Definition handler : Set := nat.

(** [ws.readyState]. *)
Inductive ready_state : Set := CONNECTING | OPEN | CLOSING | CLOSED.

#[global] Instance ready_state_eq_dec : EqDecision ready_state.
Proof. solve_decision. Defined.

(** Who is waiting on the promise that [publish] returns: [resolveMe] of a
    pending entry resumes that caller.
    - [AwaitCaller]: [publish], [info], [getState], [putState] hand the
      promise to their caller, who receives the response frame;
    - [AwaitNobody]: [subscribe] drops the promise;
    - [AwaitDeleteMessages]: [deleteMessages] awaits it and returns nothing;
    - [AwaitUnsubscribe]: [unsubscribe] awaits it and then clears the
      listener. *)
Inductive awaiter : Set :=
  | AwaitCaller
  | AwaitNobody
  | AwaitDeleteMessages
  | AwaitUnsubscribe.

(** An entry of [waitingOperations]. *)
Record pending : Type := Pending {
  resolveMe : awaiter;
  data : value;
  p_cMsgId : Qc;
  p_clientId : Qc;
}.

(** The fields of [DurableStreamClient].  [ws] is the identity of the
    current socket handle; [listener] is [None] for the empty holder [{}]
    and for a holder whose [doHandle] is [undefined]. *)
Record session : Type := Session {
  ws : nat;
  waitingOperations : gmap string pending;
  cMsgId : Qc;
  clientId : Qc;
  listener : option handler;
  wsUrl : string;
  isConnected : bool;
  reconnects : Z;
  r2Url : string;
  apiKey : string;
  lastSequence : value;
  host : string;
}.

Definition set_ws (x : nat) (s : session) : session :=
  Session x (waitingOperations s) (cMsgId s) (clientId s) (listener s)
    (wsUrl s) (isConnected s) (reconnects s) (r2Url s) (apiKey s)
    (lastSequence s) (host s).

Definition set_waitingOperations (x : gmap string pending) (s : session) : session :=
  Session (ws s) x (cMsgId s) (clientId s) (listener s)
    (wsUrl s) (isConnected s) (reconnects s) (r2Url s) (apiKey s)
    (lastSequence s) (host s).

Definition set_cMsgId (x : Qc) (s : session) : session :=
  Session (ws s) (waitingOperations s) x (clientId s) (listener s)
    (wsUrl s) (isConnected s) (reconnects s) (r2Url s) (apiKey s)
    (lastSequence s) (host s).

Definition set_listener (x : option handler) (s : session) : session :=
  Session (ws s) (waitingOperations s) (cMsgId s) (clientId s) x
    (wsUrl s) (isConnected s) (reconnects s) (r2Url s) (apiKey s)
    (lastSequence s) (host s).

Definition set_isConnected (x : bool) (s : session) : session :=
  Session (ws s) (waitingOperations s) (cMsgId s) (clientId s) (listener s)
    (wsUrl s) x (reconnects s) (r2Url s) (apiKey s)
    (lastSequence s) (host s).

Definition set_reconnects (x : Z) (s : session) : session :=
  Session (ws s) (waitingOperations s) (cMsgId s) (clientId s) (listener s)
    (wsUrl s) (isConnected s) x (r2Url s) (apiKey s)
    (lastSequence s) (host s).

Definition set_lastSequence (x : value) (s : session) : session :=
  Session (ws s) (waitingOperations s) (cMsgId s) (clientId s) (listener s)
    (wsUrl s) (isConnected s) (reconnects s) (r2Url s) (apiKey s)
    x (host s).

(** ** Effects *)

Inductive log_line : Type :=
  | LogConnected (url : string) (n : Z)
  | LogReestablishing (sequence : value)
  | LogAttempting (h : string)
  | LogSessionClosed
  | LogWaiting (tries : nat).

(** The three places that call [ws.send]. *)
Inductive send_site : Set := SiteAck | SitePublish | SiteEcho.

(** [doHandle h frame ack] is the call [listener.doHandle(json, ack)].
    The handler and the closure share the object [json]: [frame] is what
    the object holds at the call, and [ack current] is what the closure
    does when it is invoked while the object holds [current], which is
    [frame] unless the handler has written to the object in the meantime.
    [resolved k frame] is the call [resolveMe(json)] of a pending entry. *)
Inductive effect : Type :=
  | ws_send (site : send_site) (frame : json)
  | console_log (l : log_line)
  | new_WebSocket (url : string)
  | addEventListeners (w : nat)
  | doHandle (h : handler) (frame : json)
      (ack : json → session → session * list effect)
  | resolved (k : awaiter) (frame : json).

(** ** constructor *)

Record options : Type := Options {
  o_host : string;
  o_secure : bool;
  o_apiKey : string;
  o_subject : string;
}.

(** The object that the constructor builds when the key check passes;
    [rand] is the value of [Math.random()], a number with [0 ≤ rand < 1]. *)
Definition new_session (obj : options) (rand : Qc) : session :=
  {| host := o_host obj;
     apiKey := o_apiKey obj;
     r2Url := (if o_secure obj then "https" else "http") +:+ "://" +:+ o_host obj +:+ "/r2";
     wsUrl :=
       (if o_secure obj then "wss" else "ws") +:+ "://" +:+ o_host obj +:+
       "/stream/" +:+ o_subject obj +:+ "?apiKey=" +:+ o_apiKey obj;
     ws := 0%nat;
     waitingOperations := ∅;
     cMsgId := rand;
     clientId := rand;
     listener := None;
     isConnected := false;
     reconnects := (-1)%Z;
     lastSequence := Some (JNum 0) |}.

(** [new DurableStreamClient(obj)]. *)
Definition constructor (obj : options) (rand : Qc) : session + error :=
  if decide (o_apiKey obj = EmptyString) then inr (Error "No apiKey exists")
  else inl (new_session obj rand).

(** ** The acknowledgment closure

    [async () => { this.lastSequence = json.sequence;
                   this.ws.send(JSON.stringify(json)) }].
    The closure reads the object [json] when it is called, not when it is
    made: [frame] is what the object holds then, the delivered frame
    without its [pub] tag unless the handler has written to it. *)
Definition ack (frame : json) (s : session) : session * list effect :=
  (set_lastSequence (Get frame "sequence") s, [ws_send SiteAck frame]).

(** ** canSend

    [reads i] is the value of [this.isConnected] when the loop condition is
    evaluated with [tries = i]: [reads 0] at the call, [reads i] after the
    i-th 500 ms sleep.  The loop leaves at the first read that finds the
    session connected, or by [break] once [tries] exceeds 20. *)
Fixpoint canSend_loop (fuel : nat) (reads : nat → bool) (tries : nat) : nat * list effect :=
  if reads tries then (tries, [])
  else
    match fuel with
    | O => (tries, [])
    | S fuel' =>
        let tries' := S tries in
        let l := console_log (LogWaiting tries') in
        if (20 <? tries')%nat then (tries', [l])
        else
          let '(t, ls) := canSend_loop fuel' reads tries' in
          (t, l :: ls)
    end.

(** At most 21 iterations run, see [canSend_loop_fuel]. *)
Definition canSend (reads : nat → bool) : bool * list effect :=
  let '(tries, ls) := canSend_loop 21 reads 0 in
  ((tries <? 20)%nat, ls).

(** The reads of a call made in state [s]: the first one is synchronous
    with the call, the later ones see what the rest of the program has done
    to [isConnected] in the meantime. *)
Definition observe (s : session) (later : nat → bool) : nat → bool :=
  λ i, match i with O => isConnected s | S _ => later i end.

(** What a call of the session's interface gives back: a promise settled
    with a value, or one that stays pending until the response to the
    request just sent is routed. *)
Inductive returned : Type :=
  | Returns (v : value)
  | AwaitsResponse.

Definition soft_error : json :=
  JObj [("error", JStr "Could not send message")].

(** The platform: [Number.prototype.toString], which turns a number into a
    property key. *)
Class Platform : Type := { Number_toString : Qc → string }.

Section Platform.

Context {platform : Platform}.

(** [String(v)]; an array joins its items with commas, [null] items being
    written as the empty string. *)
Fixpoint ToString (j : json) : string :=
  match j with
  | JNull => "null"
  | JBool b => if b then "true" else "false"
  | JNum n => Number_toString n
  | JStr s => s
  | JArr items =>
      (fix join (l : list json) : string :=
         match l with
         | [] => EmptyString
         | x :: r =>
             let e := match x with JNull => EmptyString | _ => ToString x end in
             match r with [] => e | _ => e +:+ "," +:+ join r end
         end) items
  | JObj _ => "[object Object]"
  end.

(** The key under which [obj[v]] reads or writes. *)
Definition ToPropertyKey (v : value) : string :=
  match v with
  | None => "undefined"
  | Some j => ToString j
  end.

(** *** publish

    The body of the promise executor in [publish]: take the next request
    id, register the pending entry under it, send the request. *)
Definition publish_send (k : awaiter) (msg : value) (s : session) : session * list effect :=
  let id := cMsgId s + 1 in
  let s1 := set_cMsgId id s in
  let entry :=
    {| resolveMe := k; data := msg; p_cMsgId := id; p_clientId := clientId s1 |} in
  let s2 :=
    set_waitingOperations
      (<[ToPropertyKey (Some (JNum id)) := entry]> (waitingOperations s1)) s1 in
  (s2, [ws_send SitePublish
          (object [("data", msg); ("cMsgId", Some (JNum id));
                   ("clientId", Some (JNum (clientId s2)))])]).

(** [publish(msg)], called in state [s] by a caller that treats the
    returned promise as [k] says.  The call is run without interleaving:
    what other segments do while [canSend] sleeps is seen through [later]
    only.  In a session that is connected at the call, [canSend] returns
    without a sleep and the call is this one segment.  After a sleep, the
    request is sent from the state of that later moment, which other
    segments may have changed: [publish_send] is the segment that runs
    then, and what holds of it in any state is stated of [publish_send]. *)
Definition publish (k : awaiter) (later : nat → bool) (msg : value) (s : session)
  : session * list effect * returned :=
  let '(ok, ls) := canSend (observe s later) in
  if ok then
    let '(s', es) := publish_send k msg s in (s', ls ++ es, AwaitsResponse)
  else (s, ls, Returns (Some soft_error)).

Definition info (later : nat → bool) (s : session) : session * list effect * returned :=
  publish AwaitCaller later (Some (object [("cmd", Some (JStr "getStreamInfo"))])) s.

Definition getState (later : nat → bool) (s : session) : session * list effect * returned :=
  publish AwaitCaller later (Some (object [("cmd", Some (JStr "getState"))])) s.

Definition putState (later : nat → bool) (state : value) (s : session)
  : session * list effect * returned :=
  publish AwaitCaller later
    (Some (object [("cmd", Some (JStr "putState")); ("state", state)])) s.

(** [deleteMessages] awaits the promise of [publish] and returns nothing. *)
Definition deleteMessages (later : nat → bool) (sequence : value) (s : session)
  : session * list effect * returned :=
  let '(s', es, r) :=
    publish AwaitDeleteMessages later
      (Some (object [("cmd", Some (JStr "deleteMessages")); ("sequence", sequence)])) s in
  match r with
  | Returns _ => (s', es, Returns undefined)
  | AwaitsResponse => (s', es, AwaitsResponse)
  end.

(** [subscribe] does not await [publish]: it sets the cursor and the
    listener and returns at once. *)
Definition subscribe (later : nat → bool) (startSequence : value)
    (doHandle : option handler) (s : session) : session * list effect * returned :=
  let '(s', es, _) :=
    publish AwaitNobody later
      (Some (object [("cmd", Some (JStr "subscribe")); ("startSequence", startSequence)])) s in
  (set_listener doHandle (set_lastSequence startSequence s'), es, Returns undefined).

(** What runs when the promise of [publish] settles, for each awaiter: only
    [unsubscribe] has code after its [await]. *)
Definition resume (k : awaiter) (s : session) : session :=
  match k with
  | AwaitUnsubscribe => set_listener None s
  | _ => s
  end.

(** [unsubscribe]: the listener is cleared when the awaited promise
    settles, at once with the soft error or later with the response. *)
Definition unsubscribe (later : nat → bool) (s : session) : session * list effect * returned :=
  let '(s', es, r) :=
    publish AwaitUnsubscribe later (Some (object [("cmd", Some (JStr "unsubscribe"))])) s in
  match r with
  | Returns _ => (resume AwaitUnsubscribe s', es, Returns undefined)
  | AwaitsResponse => (s', es, AwaitsResponse)
  end.

(** *** The message handler installed by setupListeners *)
Definition on_message (msg : payload) (s : session) : session * list effect * completion :=
  match JSON_parse msg with
  | None => (s, [], Threw SyntaxError)
  | Some JNull => (s, [], Threw TypeError)
  | Some json =>
      if ToBoolean (Get json "pub") then
        let json := Delete json "pub" in
        match listener s with
        | Some h => (s, [doHandle h json ack], Done)
        | None => (s, [], Threw TypeError)
        end
      else if ToBoolean (Get json "cMsgId") then
        let key := ToPropertyKey (Get json "cMsgId") in
        match waitingOperations s !! key with
        | Some entry =>
            (resume (resolveMe entry)
               (set_waitingOperations (delete key (waitingOperations s)) s),
             [resolved (resolveMe entry) json], Done)
        | None => (s, [], Threw TypeError)
        end
      else if ToBoolean (Get json "sMsgId") then
        (s, [ws_send SiteEcho json], Done)
      else (s, [], Done)
  end.

(** *** init

    One iteration of the loop of [init], up to its [await]; [r] is
    [this.ws.readyState] at the top of the iteration.  The result says
    whether the iteration found the socket open and is now in the settle
    delay. *)
Definition init_poll (r : ready_state) (s : session) : session * list effect * bool :=
  let s := set_isConnected false s in
  match r with
  | OPEN => (s, [], true)
  | CLOSED | CLOSING =>
      (set_ws (S (ws s)) s,
       [console_log (LogAttempting (host s)); new_WebSocket (wsUrl s)], false)
  | CONNECTING => (s, [], false)
  end.

(** The rest of [init] after the settle delay, [setupListeners] included.
    [subscribe] is called with [isConnected] just set, so that its [canSend]
    succeeds on the first read; its request leaves in a microtask, after
    [setupListeners] has installed the listeners. *)
Definition init_settled (s : session) : session * list effect :=
  let s := set_isConnected true (set_reconnects (reconnects s + 1)%Z s) in
  let l := console_log (LogConnected (wsUrl s) (reconnects s)) in
  match listener s with
  | Some h =>
      let '(s', es, _) := subscribe (λ _, true) (lastSequence s) (Some h) s in
      (s', l :: console_log (LogReestablishing (lastSequence s))
             :: addEventListeners (ws s') :: es)
  | None => (s, [l; addEventListeners (ws s)])
  end.

(** [init()], given the ready states that its iterations read.  The loop has
    no bound: the last component says whether it has returned. *)
Fixpoint init (polls : list ready_state) (s : session) : session * list effect * bool :=
  match polls with
  | [] => (s, [], false)
  | r :: polls' =>
      let '(s1, es1, settling) := init_poll r s in
      if settling then
        let '(s2, es2) := init_settled s1 in (s2, es1 ++ es2, true)
      else
        let '(s2, es2, b) := init polls' s1 in (s2, es1 ++ es2, b)
  end.

(** ** Runs

    The segments that the event loop can interleave, and the calls of the
    interface run without interleaving.  A run follows the session object
    and what the segments do; it drops the completion of the message
    handler, and so does not say whether the platform lets the program go
    on after a handler has thrown. *)
Inductive op : Type :=
  | OClose
  | OInitPoll (r : ready_state)
  | OInitSettled
  | OMessage (msg : payload)
  | OAck (frame : json)
  | OPublish (k : awaiter) (later : nat → bool) (msg : value)
  | OSend (k : awaiter) (msg : value)
  | OSubscribe (later : nat → bool) (startSequence : value) (doHandle : option handler)
  | OUnsubscribe (later : nat → bool).

Definition step (o : op) (s : session) : session * list effect :=
  match o with
  | OClose => (s, [console_log LogSessionClosed])
  | OInitPoll r => let '(s', es, _) := init_poll r s in (s', es)
  | OInitSettled => init_settled s
  | OMessage msg => let '(s', es, _) := on_message msg s in (s', es)
  | OAck frame => ack frame s
  | OPublish k later msg => let '(s', es, _) := publish k later msg s in (s', es)
  | OSend k msg => publish_send k msg s
  | OSubscribe later start h => let '(s', es, _) := subscribe later start h s in (s', es)
  | OUnsubscribe later => let '(s', es, _) := unsubscribe later s in (s', es)
  end.

Fixpoint run (os : list op) (s : session) : session * list effect :=
  match os with
  | [] => (s, [])
  | o :: os' =>
      let '(s1, es1) := step o s in
      let '(s2, es2) := run os' s1 in
      (s2, es1 ++ es2)
  end.

(** The number of times [init] has completed in a run. *)
Fixpoint establishments (os : list op) : Z :=
  match os with
  | [] => 0
  | OInitSettled :: os' => 1 + establishments os'
  | _ :: os' => establishments os'
  end.

(** The subscribe request of a session whose cursor is [lastSequence s]. *)
Definition subscribe_request (s : session) : json :=
  object [("data", Some (object [("cmd", Some (JStr "subscribe"));
                                  ("startSequence", lastSequence s)]));
          ("cMsgId", Some (JNum (cMsgId s + 1)));
          ("clientId", Some (JNum (clientId s)))].

(** The start sequence that a request carries. *)
Definition start_of (request : json) : value :=
  match Get request "data" with
  | Some body => Get body "startSequence"
  | None => None
  end.

(** The order of cursor values: numbers by size; any other value is only
    comparable with itself. *)
Definition cursor_le (a b : value) : Prop :=
  match a, b with
  | Some (JNum x), Some (JNum y) => x ≤ y
  | _, _ => a = b
  end.

(** A run in which every acknowledged frame and every [startSequence]
    carries a sequence that is not below the cursor of the moment. *)
Fixpoint in_order (os : list op) (s : session) : Prop :=
  match os with
  | [] => True
  | o :: os' =>
      match o with
      | OAck frame => cursor_le (lastSequence s) (Get frame "sequence")
      | OSubscribe _ start _ => cursor_le (lastSequence s) start
      | _ => True
      end ∧ in_order os' (step o s).1
  end.

End Platform.

(** The lines that [canSend] logs in [n] turns of its loop, the first one
    with [tries = from]. *)
Definition waiting_lines (from n : nat) : list effect :=
  (λ i, console_log (LogWaiting i)) <$> seq from n.

(** The frames handed to [ws.send] in a list of effects, in order. *)
Fixpoint sent (es : list effect) : list json :=
  match es with
  | [] => []
  | ws_send _ frame :: es' => frame :: sent es'
  | _ :: es' => sent es'
  end.

(** The id of the i-th request of a session whose counter started at
    [seed], in exact arithmetic.  The doubles of the program follow these
    in order, not digit for digit: a sum that a double cannot hold is
    rounded. *)
Definition nth_id (seed : Qc) (i : nat) : Qc := seed + Qc_of_Z (Z.of_nat i).

(** A number that is an integer: in lowest terms its denominator is 1. *)
Definition is_integer (n : Qc) : Prop := Qden n = 1%positive.

(** The ids of the requests in a list of effects, in the order sent. *)
Fixpoint request_ids (es : list effect) : list Qc :=
  match es with
  | [] => []
  | ws_send SitePublish frame :: es' =>
      match Get frame "cMsgId" with
      | Some (JNum n) => n :: request_ids es'
      | _ => request_ids es'
      end
  | _ :: es' => request_ids es'
  end.

(** ** Inputs for the examples

    A stand-in for the platform's number printer, used only where an
    example is evaluated; every theorem is stated for all printers. *)
Definition print_ratio (n : Qc) : string :=
  match Qden n with
  | 1%positive => pretty (Qnum n)
  | d => pretty (Qnum n) +:+ "/" +:+ pretty (Zpos d)
  end.

Definition ratio_platform : Platform := {| Number_toString := print_ratio |}.

Definition half : Qc := Q2Qc (1 # 2).

Definition local_options : options :=
  {| o_host := "localhost:8787"; o_secure := false;
     o_apiKey := "my-api-key"; o_subject := "my-subject" |}.

(** The session of the README, just constructed, with [Math.random()]
    having returned one half. *)
Definition fresh : session := new_session local_options half.

Definition never : nat → bool := λ _, false.

(** Delivery frames [{pub: true, sequence: n, payload: "x"}]. *)
Definition delivery (n : Z) : json :=
  JObj [("pub", JBool true); ("sequence", JNum (Qc_of_Z n)); ("payload", JStr "x")].

Definition delivered (n : Z) : json :=
  JObj [("sequence", JNum (Qc_of_Z n)); ("payload", JStr "x")].

(** The session after a first connect, through one closed and one
    connecting socket. *)
Definition established : session :=
  (init (platform := ratio_platform) [CLOSED; CONNECTING; OPEN] fresh).1.1.

(** The README's consumer: [subscribe(0, handler 7)] on the connected
    session. *)
Definition subscribed : session :=
  (subscribe (platform := ratio_platform) never (Some (JNum 0)) (Some 7%nat)
     established).1.1.

(** The connected session with one [publish("hello")] in flight; its
    request took the id [3/2]. *)
Definition awaiting : session :=
  (publish (platform := ratio_platform) AwaitCaller never (Some (JStr "hello"))
     established).1.1.

(** A response to the request with id [3/2], a server request, and a frame
    with none of the three tags. *)
Definition response : json :=
  JObj [("cMsgId", JNum (Q2Qc (3 # 2))); ("ok", JBool true)].

Definition server_request : json :=
  JObj [("sMsgId", JNum 1); ("ping", JBool true)].

Definition stray : json := JObj [("hello", JStr "world")].

(** ** More of the class: sockets, listeners, the R2 calls *)

(** The sockets that [init] opens while it reads [polls]: one for every
    closed or closing socket that it finds before an open one. *)
Fixpoint attempts (polls : list ready_state) : nat :=
  match polls with
  | [] => 0
  | OPEN :: _ => 0
  | CONNECTING :: polls' => attempts polls'
  | (CLOSING | CLOSED) :: polls' => S (attempts polls')
  end.

(** The urls of the sockets opened in a list of effects. *)
Fixpoint opened (es : list effect) : list string :=
  match es with
  | [] => []
  | new_WebSocket url :: es' => url :: opened es'
  | _ :: es' => opened es'
  end.

(** The sockets on which a list of effects installs the listeners of
    [setupListeners], once for every call of it. *)
Fixpoint listening (es : list effect) : list nat :=
  match es with
  | [] => []
  | addEventListeners w :: es' => w :: listening es'
  | _ :: es' => listening es'
  end.

(** The promises of [publish] that a list of effects settles. *)
Fixpoint resolutions (es : list effect) : list (awaiter * json) :=
  match es with
  | [] => []
  | resolved k frame :: es' => (k, frame) :: resolutions es'
  | _ :: es' => resolutions es'
  end.

(** The handler calls in a list of effects: the handler and the frame. *)
Fixpoint handled (es : list effect) : list (handler * json) :=
  match es with
  | [] => []
  | doHandle h frame _ :: es' => (h, frame) :: handled es'
  | _ :: es' => handled es'
  end.

(** *** The R2 calls

    [axios] is the HTTP client: a request either responds, with the [data]
    of the response, or rejects with an error.  Each call is wrapped in
    [try]/[catch] and returns the error that it catches. *)
Inductive http_method : Set := HEAD | GET | POST | DELETE.

(** [upload] is the path of the file streamed as the body;
    [responseType] the option of that name; [unbounded] says that
    [maxBodyLength] and [maxContentLength] are [Infinity]. *)
Record http_request : Type := HttpRequest {
  method : http_method;
  url : string;
  upload : option string;
  responseType : option string;
  unbounded : bool;
}.

Inductive http_outcome : Type :=
  | Responds (res_data : value)
  | Rejects (err : error).

(** What an R2 call returns: [res.data], or the caught error as a value. *)
Definition returned_or_caught (o : http_outcome) : value + error :=
  match o with
  | Responds res_data => inl res_data
  | Rejects err => inr err
  end.

(** [`${this.r2Url}/${key}?apiKey=${this.apiKey}`]. *)
Definition object_url (s : session) (key : string) : string :=
  r2Url s +:+ "/" +:+ key +:+ "?apiKey=" +:+ apiKey s.

(** [headObject(key = '')]: [None] is the call without argument. *)
Definition headObject (axios : http_request → http_outcome) (key : option string)
    (s : session) : value + error :=
  returned_or_caught
    (axios (HttpRequest HEAD (object_url s (default EmptyString key)) None None false)).

Definition getObject (axios : http_request → http_outcome) (key : string)
    (s : session) : value + error :=
  returned_or_caught
    (axios (HttpRequest GET (object_url s key) None (Some "arraybuffer") false)).

Definition putObject (axios : http_request → http_outcome) (key file : string)
    (s : session) : value + error :=
  returned_or_caught
    (axios (HttpRequest POST (object_url s key) (Some file) None true)).

Definition deleteObject (axios : http_request → http_outcome) (key : string)
    (s : session) : value + error :=
  returned_or_caught
    (axios (HttpRequest DELETE (object_url s key) None None false)).

(** The url of an object as the options of the constructor give it. *)
Definition r2_url (obj : options) (key : string) : string :=
  (if o_secure obj then "https" else "http") +:+ "://" +:+ o_host obj +:+
  "/r2/" +:+ key +:+ "?apiKey=" +:+ o_apiKey obj.

(** An HTTP client for the examples: the bucket holds one object. *)
Definition one_object (r : http_request) : http_outcome :=
  if decide (url r = "http://localhost:8787/r2/a.txt?apiKey=my-api-key")
  then Responds (Some (JStr "contents"))
  else Rejects (Error "Request failed with status code 404").

(** *** Requests in flight *)

(** The request frames in a list of effects: what [publish] has sent. *)
Fixpoint requests (es : list effect) : list json :=
  match es with
  | [] => []
  | ws_send SitePublish frame :: es' => frame :: requests es'
  | _ :: es' => requests es'
  end.

(** The frame that [publish(body)] sends from the state [s]. *)
Definition request_frame (s : session) (body : value) : json :=
  object [("data", body); ("cMsgId", Some (JNum (cMsgId s + 1)));
          ("clientId", Some (JNum (clientId s)))].

(** The segments that a call of [init] runs when its loop reads [polls]:
    one per iteration, and the completion after the first open socket. *)
Fixpoint init_segments (polls : list ready_state) : list op :=
  match polls with
  | [] => []
  | OPEN :: _ => [OInitPoll OPEN; OInitSettled]
  | r :: polls' => OInitPoll r :: init_segments polls'
  end.

(** A segment that is not the message handler. *)
Definition not_a_message (o : op) : Prop :=
  match o with OMessage _ => False | _ => True end.

Section Registry.

Context {platform : Platform}.

(** The state of the registry in a session whose counter started at [seed]
    and has issued [n] requests: the counter is [seed + n], and every
    pending entry sits under the key of its own id, which is one of the
    ids issued, and carries the client id [seed]. *)
Definition registry_kept (seed : Qc) (n : nat) (s : session) : Prop :=
  clientId s = seed ∧
  cMsgId s = nth_id seed n ∧
  ∀ key entry, waitingOperations s !! key = Some entry →
    key = Number_toString (p_cMsgId entry) ∧
    p_clientId entry = seed ∧
    ∃ i, (1 ≤ i ≤ n)%nat ∧ p_cMsgId entry = nth_id seed i.

End Registry.

(** The command that a request carries. *)
Definition command_of (request : json) : value :=
  match Get request "data" with
  | Some body => Get body "cmd"
  | None => None
  end.

(** Inputs for the examples: a session that becomes connected at the read
    after the 20th sleep of [canSend], and one that becomes connected at
    the read after the third. *)
Definition connects_after (n : nat) : nat → bool := λ i, (n <=? i)%nat.

(** The response to the second request of the session of the examples. *)
Definition second_response : json :=
  JObj [("cMsgId", JNum (Q2Qc (5 # 2))); ("ok", JBool true)].

(** The first response with its id spelled as a string. *)
Definition spelled_response : json :=
  JObj [("cMsgId", JStr "3/2"); ("ok", JBool true)].

(** * Properties *)

Section Facts.

Context {platform : Platform}.

Implicit Types (s : session) (json frame : json) (msg : payload) (k : awaiter)
  (body : value).

(** ** The message handler *)

(** Only an object holds a truthy tag. *)
Lemma truthy_field_object json key :
  ToBoolean (Get json key) = true → ∃ fields, json = JObj fields.
Proof. destruct json; simpl; try discriminate; eauto. Qed.

Lemma on_message_object fields s :
  on_message (Text (JObj fields)) s =
    let json := JObj fields in
    if ToBoolean (Get json "pub") then
      match listener s with
      | Some h => (s, [doHandle h (Delete json "pub") ack], Done)
      | None => (s, [], Threw TypeError)
      end
    else if ToBoolean (Get json "cMsgId") then
      let key := ToPropertyKey (Get json "cMsgId") in
      match waitingOperations s !! key with
      | Some entry =>
          (resume (resolveMe entry)
             (set_waitingOperations (delete key (waitingOperations s)) s),
           [resolved (resolveMe entry) json], Done)
      | None => (s, [], Threw TypeError)
      end
    else if ToBoolean (Get json "sMsgId") then (s, [ws_send SiteEcho json], Done)
    else (s, [], Done).
Proof. reflexivity. Qed.

Lemma resume_waitingOperations k s :
  waitingOperations (resume k s) = waitingOperations s.
Proof. by destruct k. Qed.

Lemma resume_lastSequence k s : lastSequence (resume k s) = lastSequence s.
Proof. by destruct k. Qed.

Lemma resume_cMsgId k s : cMsgId (resume k s) = cMsgId s.
Proof. by destruct k. Qed.

Lemma resume_reconnects k s : reconnects (resume k s) = reconnects s.
Proof. by destruct k. Qed.

(** The two outcomes of the [cMsgId] branch. *)
Lemma on_message_response msg json s entry :
  JSON_parse msg = Some json →
  ToBoolean (Get json "pub") = false →
  ToBoolean (Get json "cMsgId") = true →
  waitingOperations s !! ToPropertyKey (Get json "cMsgId") = Some entry →
  on_message msg s =
    (resume (resolveMe entry)
       (set_waitingOperations
          (delete (ToPropertyKey (Get json "cMsgId")) (waitingOperations s)) s),
     [resolved (resolveMe entry) json], Done).
Proof.
  intros Hparse Hpub Hid Hentry.
  destruct (truthy_field_object _ _ Hid) as [fields ->].
  destruct msg as [raw|j]; [done|]; injection Hparse as ->.
  by rewrite on_message_object; cbn zeta; rewrite Hpub, Hid, Hentry.
Qed.

Lemma on_message_unmatched msg json s :
  JSON_parse msg = Some json →
  ToBoolean (Get json "pub") = false →
  ToBoolean (Get json "cMsgId") = true →
  waitingOperations s !! ToPropertyKey (Get json "cMsgId") = None →
  on_message msg s = (s, [], Threw TypeError).
Proof.
  intros Hparse Hpub Hid Hentry.
  destruct (truthy_field_object _ _ Hid) as [fields ->].
  destruct msg as [raw|j]; [done|]; injection Hparse as ->.
  by rewrite on_message_object; cbn zeta; rewrite Hpub, Hid, Hentry.
Qed.

(** The holder is empty after construction, and after [unsubscribe] has
    completed. *)
Lemma constructor_listener obj rand s :
  constructor obj rand = inl s → listener s = None.
Proof. unfold constructor. case_decide; naive_solver. Qed.

Lemma resume_unsubscribe_listener s : listener (resume AwaitUnsubscribe s) = None.
Proof. done. Qed.

Lemma on_message_no_listener msg json s :
  JSON_parse msg = Some json →
  ToBoolean (Get json "pub") = true →
  listener s = None →
  on_message msg s = (s, [], Threw TypeError).
Proof.
  intros Hparse Hpub Hnone.
  destruct (truthy_field_object _ _ Hpub) as [fields ->].
  destruct msg as [raw|j]; [done|]; injection Hparse as ->.
  by rewrite on_message_object; cbn zeta; rewrite Hpub, Hnone.
Qed.

(** C10. A frame with a truthy [pub] tag that arrives while the listener
    holder is empty is not ignored: the handler step calls the absent
    [doHandle] and fails with a [TypeError]; nothing is delivered, nothing
    is sent and the session is left as it was.  This is so in a session
    just constructed, and in one whose [unsubscribe] has completed. *)
Theorem delivery_without_listener_throws msg json s :
  JSON_parse msg = Some json →
  ToBoolean (Get json "pub") = true →
  (listener s = None → on_message msg s = (s, [], Threw TypeError)) ∧
  (∀ obj rand s0, constructor obj rand = inl s0 →
     on_message msg s0 = (s0, [], Threw TypeError)) ∧
  (let s1 := resume AwaitUnsubscribe s in
   on_message msg s1 = (s1, [], Threw TypeError)).
Proof.
  intros Hparse Hpub. split_and!.
  - by eapply on_message_no_listener.
  - intros obj rand s0 Hnew.
    eapply on_message_no_listener; eauto using constructor_listener.
  - by eapply on_message_no_listener.
Qed.

(** C3, as the code has it.  A payload that [JSON.parse] rejects makes the
    handler step fail with the [SyntaxError], and the payload [null] with a
    [TypeError]: there is no [try] in the handler, so the error leaves it
    as the rejection of its promise, and nothing is logged.  Whenever the
    handler step throws, for these payloads or any other, it has changed
    no field of the session, sent nothing and called nothing.  What
    becomes of the program after the rejection is the platform's doing and
    is not stated here. *)
Theorem malformed_payload_rejects raw s :
  on_message (Text JNull) s = (s, [], Threw TypeError) ∧
  on_message (Malformed raw) s = (s, [], Threw SyntaxError) ∧
  ∀ msg e, (on_message msg s).2 = Threw e → on_message msg s = (s, [], Threw e).
Proof.
  split_and!; [done..|]. intros msg e.
  destruct msg as [raw'|[| | | | |fields]]; try (by intros [= <-]); try done.
  rewrite on_message_object. cbn zeta.
  repeat case_match; try done; by intros [= <-].
Qed.

(** C2, as the code has it.  A frame routed as a response (no truthy [pub]
    tag, a truthy [cMsgId]) is looked up under the key of its [cMsgId].
    When an entry is registered there, its [resolveMe] is called with the
    whole frame and that entry, and no other, is removed.  When none is,
    reading [resolveMe] of [undefined] fails the step with a [TypeError];
    the map is unchanged and nothing is sent. *)
Theorem response_resolves_registered_entry msg json s :
  JSON_parse msg = Some json →
  ToBoolean (Get json "pub") = false →
  ToBoolean (Get json "cMsgId") = true →
  let key := ToPropertyKey (Get json "cMsgId") in
  match waitingOperations s !! key with
  | Some entry =>
      ∃ s', on_message msg s = (s', [resolved (resolveMe entry) json], Done) ∧
            s' = resume (resolveMe entry)
                   (set_waitingOperations (delete key (waitingOperations s)) s) ∧
            waitingOperations s' !! key = None ∧
            ∀ key', key' ≠ key →
              waitingOperations s' !! key' = waitingOperations s !! key'
  | None => on_message msg s = (s, [], Threw TypeError)
  end.
Proof.
  intros Hparse Hpub Hid key.
  destruct (waitingOperations s !! key) as [entry|] eqn:Hentry.
  - eexists; split_and!; [by eapply on_message_response|done| |].
    + by rewrite resume_waitingOperations; simpl; rewrite lookup_delete_eq.
    + intros key' Hne. rewrite resume_waitingOperations; simpl.
      by rewrite lookup_delete_ne.
  - by eapply on_message_unmatched.
Qed.

(** C5, as the code has it.  The handler tests the three tags for
    truthiness, in the order [pub], [cMsgId], [sMsgId], on every parsed
    value but [null], which fails the step with a [TypeError].
    - [pub] truthy: the tag is deleted and the registered handler is called
      with the object and the acknowledgment closure, which, when it is
      invoked, sets the cursor to the [sequence] that the object holds then
      and sends the object; with no handler registered the step fails with
      a [TypeError];
    - else [cMsgId] truthy: the entry registered under its key is resolved
      with the frame and removed; with no entry there the step fails with
      a [TypeError];
    - else [sMsgId] truthy: the frame is sent back as it came;
    - else: nothing is sent, called or changed. *)
Theorem router_priority json s :
  let pub := ToBoolean (Get json "pub") in
  let cMsg := ToBoolean (Get json "cMsgId") in
  let sMsg := ToBoolean (Get json "sMsgId") in
  let key := ToPropertyKey (Get json "cMsgId") in
  (∀ current s2,
     ack current s2 =
       (set_lastSequence (Get current "sequence") s2, [ws_send SiteAck current])) ∧
  on_message (Text JNull) s = (s, [], Threw TypeError) ∧
  (pub = true →
     (∀ h, listener s = Some h →
        on_message (Text json) s = (s, [doHandle h (Delete json "pub") ack], Done)) ∧
     (listener s = None → on_message (Text json) s = (s, [], Threw TypeError)) ∧
     Get (Delete json "pub") "pub" = None) ∧
  (pub = false → cMsg = true →
     (∀ entry, waitingOperations s !! key = Some entry →
        on_message (Text json) s =
          (resume (resolveMe entry)
             (set_waitingOperations (delete key (waitingOperations s)) s),
           [resolved (resolveMe entry) json], Done)) ∧
     (waitingOperations s !! key = None →
        on_message (Text json) s = (s, [], Threw TypeError))) ∧
  (pub = false → cMsg = false → sMsg = true →
     on_message (Text json) s = (s, [ws_send SiteEcho json], Done)) ∧
  (json ≠ JNull → pub = false → cMsg = false → sMsg = false →
     on_message (Text json) s = (s, [], Done)).
Proof.
  intros pub cMsg sMsg key. subst pub cMsg sMsg.
  split_and!; [done..| | | |].
  - intros Hpub.
    destruct (truthy_field_object _ _ Hpub) as [fields ->].
    rewrite on_message_object; cbn zeta; rewrite Hpub. split_and!.
    + by intros h ->.
    + by intros ->.
    + simpl. clear. induction fields as [|[k' v] fields IH]; [done|].
      simpl. case_decide; [done|]. simpl. by rewrite decide_False.
  - intros Hpub Hid.
    destruct (truthy_field_object _ _ Hid) as [fields ->].
    rewrite on_message_object; cbn zeta; rewrite Hpub, Hid. fold key.
    split; [by intros entry ->|by intros ->].
  - intros Hpub Hid Hs.
    destruct (truthy_field_object _ _ Hs) as [fields ->].
    by rewrite on_message_object; cbn zeta; rewrite Hpub, Hid, Hs.
  - intros Hnull Hpub Hid Hs.
    destruct json; try done; simpl in *.
    by rewrite on_message_object; cbn zeta; simpl; rewrite Hpub, Hid, Hs.
Qed.

(** ** The bounded wait *)

Lemma sent_app es1 es2 : sent (es1 ++ es2) = sent es1 ++ sent es2.
Proof.
  induction es1 as [|e es1 IH]; [done|].
  destruct e; simpl; by rewrite ?IH.
Qed.

Lemma request_ids_app es1 es2 :
  request_ids (es1 ++ es2) = request_ids es1 ++ request_ids es2.
Proof.
  induction es1 as [|e es1 IH]; [done|].
  destruct e as [[] frame| | | | |]; simpl; rewrite ?IH; try done.
  by destruct (Get frame "cMsgId") as [[]|].
Qed.

Lemma waiting_lines_no_send from n site frame :
  ws_send site frame ∉ waiting_lines from n.
Proof.
  unfold waiting_lines. intros (i & ? & _)%list_elem_of_fmap. done.
Qed.

(** More fuel than 21 changes nothing: the loop of [canSend] has returned
    by then. *)
Lemma canSend_loop_fuel reads fuel extra tries :
  (tries ≤ 20)%nat → (21 ≤ fuel + tries)%nat →
  canSend_loop (fuel + extra) reads tries = canSend_loop fuel reads tries.
Proof.
  revert tries. induction fuel as [|fuel IH]; intros tries Hle Hfuel; [lia|].
  simpl. destruct (reads tries); [done|].
  destruct (Nat.ltb_spec 20 (S tries)); [done|].
  rewrite IH by lia. done.
Qed.

Lemma canSend_loop_only_logs reads fuel tries :
  sent (canSend_loop fuel reads tries).2 = [] ∧
  request_ids (canSend_loop fuel reads tries).2 = [].
Proof.
  revert tries. induction fuel as [|fuel IH]; intros tries; simpl.
  - by destruct (reads tries).
  - destruct (reads tries); [done|].
    destruct (20 <? S tries)%nat; [done|].
    specialize (IH (S tries)). by destruct (canSend_loop fuel reads (S tries)).
Qed.

Lemma canSend_only_logs reads :
  sent (canSend reads).2 = [] ∧ request_ids (canSend reads).2 = [].
Proof.
  unfold canSend. pose proof (canSend_loop_only_logs reads 21 0) as H.
  by destruct (canSend_loop 21 reads 0).
Qed.

(** A connected session passes at the first read. *)
Lemma canSend_connected reads : reads 0%nat = true → canSend reads = (true, []).
Proof. intros H. unfold canSend. simpl. by rewrite H. Qed.

Lemma canSend_loop_disconnected reads fuel tries :
  (fuel + tries = 21)%nat →
  (∀ i, (tries ≤ i ≤ 20)%nat → reads i = false) →
  canSend_loop fuel reads tries =
    (if fuel is O then tries else 21%nat, waiting_lines (S tries) fuel).
Proof.
  revert tries. induction fuel as [|fuel IH]; intros tries Hsum Hreads.
  - simpl. by destruct (reads tries).
  - simpl. rewrite Hreads by lia.
    destruct (Nat.ltb_spec 20 (S tries)) as [Hlt|Hge].
    + assert (fuel = 0%nat) as -> by lia. assert (tries = 20%nat) as -> by lia.
      done.
    + rewrite IH by (try lia; intros; apply Hreads; lia).
      destruct fuel; [lia|done].
Qed.

(** A session that stays disconnected gives up after 21 sleeps. *)
Lemma canSend_disconnected reads :
  (∀ i, (i ≤ 20)%nat → reads i = false) →
  canSend reads = (false, waiting_lines 1 21).
Proof.
  intros Hreads. unfold canSend.
  rewrite canSend_loop_disconnected by (try done; intros; apply Hreads; lia).
  done.
Qed.

Lemma observe_disconnected s later :
  isConnected s = false →
  (∀ i, (1 ≤ i ≤ 20)%nat → later i = false) →
  ∀ i, (i ≤ 20)%nat → observe s later i = false.
Proof. intros Hs Hl [|i] Hi; simpl; [done|]. apply Hl. lia. Qed.

(** ** Calls made while disconnected *)

(** C4, as the code has it.  In a session that is disconnected at the call
    and at each of the 20 later reads of [canSend], every publish-derived
    call gives up after logging 21 waits: no frame is sent, no pending
    entry is registered and the request counter keeps its value.
    [publish], [info], [getState] and [putState] return the soft error
    value; [deleteMessages], [subscribe] and [unsubscribe] discard it and
    return [undefined], [subscribe] still recording cursor and handler and
    [unsubscribe] still clearing the handler. *)
Theorem disconnected_calls_send_nothing later s :
  isConnected s = false →
  (∀ i, (1 ≤ i ≤ 20)%nat → later i = false) →
  let waits := waiting_lines 1 21 in
  (∀ site frame, ws_send site frame ∉ waits) ∧
  (∀ k body, publish k later body s = (s, waits, Returns (Some soft_error))) ∧
  info later s = (s, waits, Returns (Some soft_error)) ∧
  getState later s = (s, waits, Returns (Some soft_error)) ∧
  (∀ state, putState later state s = (s, waits, Returns (Some soft_error))) ∧
  (∀ sequence, deleteMessages later sequence s = (s, waits, Returns undefined)) ∧
  (∀ start h, subscribe later start h s =
     (set_listener h (set_lastSequence start s), waits, Returns undefined)) ∧
  unsubscribe later s = (set_listener None s, waits, Returns undefined).
Proof.
  intros Hs Hlater waits.
  assert (∀ k body, publish k later body s = (s, waits, Returns (Some soft_error)))
    as Hpublish.
  { intros k body. unfold publish.
    by rewrite canSend_disconnected by by apply observe_disconnected. }
  split_and!; try done.
  - intros site frame. apply waiting_lines_no_send.
  - apply Hpublish.
  - apply Hpublish.
  - intros state. apply Hpublish.
  - intros sequence. unfold deleteMessages. by rewrite Hpublish.
  - intros start h. unfold subscribe. by rewrite Hpublish.
  - unfold unsubscribe. by rewrite Hpublish.
Qed.

(** ** unsubscribe *)

Lemma publish_send_fields k body s :
  let s' := (publish_send k body s).1 in
  lastSequence s' = lastSequence s ∧ listener s' = listener s ∧
  reconnects s' = reconnects s ∧ clientId s' = clientId s ∧
  cMsgId s' = cMsgId s + 1 ∧
  waitingOperations s' =
    <[ToPropertyKey (Some (JNum (cMsgId s + 1))) :=
        Pending k body (cMsgId s + 1) (clientId s)]> (waitingOperations s).
Proof. done. Qed.

Lemma publish_send_effects k body s :
  (publish_send k body s).2 =
    [ws_send SitePublish
       (object [("data", body); ("cMsgId", Some (JNum (cMsgId s + 1)));
                ("clientId", Some (JNum (clientId s)))])].
Proof. done. Qed.

(** C9, as the code has it.  [unsubscribe] never writes the cursor.  When
    [canSend] succeeds it sends one unsubscribe request and registers a
    pending entry for it; the handler is not touched by the sending and is
    cleared in the step that routes the response to that entry.  When
    [canSend] gives up, nothing is sent and the handler is cleared at
    once.  The request is sent from the state in which the wait ends:
    that is the state of the call when the session is connected then, and
    whatever state [now] the other segments have made of it otherwise. *)
Theorem unsubscribe_keeps_cursor later s :
  let body := Some (object [("cmd", Some (JStr "unsubscribe"))]) in
  let '(s', es, r) := unsubscribe later s in
  lastSequence s' = lastSequence s ∧
  (if (canSend (observe s later)).1 then
     r = AwaitsResponse ∧
     (∃ request,
        sent es = [request] ∧ command_of request = Some (JStr "unsubscribe")) ∧
     (∃ key, resolveMe <$> waitingOperations s' !! key = Some AwaitUnsubscribe)
   else
     r = Returns undefined ∧ sent es = [] ∧ s' = set_listener None s) ∧
  (isConnected s = true →
     unsubscribe later s =
       ((publish_send AwaitUnsubscribe body s).1,
        [ws_send SitePublish (request_frame s body)], AwaitsResponse)) ∧
  (∀ now,
     let sending := publish_send AwaitUnsubscribe body now in
     lastSequence sending.1 = lastSequence now ∧
     listener sending.1 = listener now ∧
     sending.2 = [ws_send SitePublish (request_frame now body)] ∧
     resolveMe <$>
       waitingOperations sending.1 !! ToPropertyKey (Some (JNum (cMsgId now + 1)))
       = Some AwaitUnsubscribe) ∧
  (∀ now,
     lastSequence (resume AwaitUnsubscribe now) = lastSequence now ∧
     listener (resume AwaitUnsubscribe now) = None) ∧
  ∀ msg json s2 entry,
    JSON_parse msg = Some json →
    ToBoolean (Get json "pub") = false →
    ToBoolean (Get json "cMsgId") = true →
    waitingOperations s2 !! ToPropertyKey (Get json "cMsgId") = Some entry →
    resolveMe entry = AwaitUnsubscribe →
    let s3 := (on_message msg s2).1.1 in
    listener s3 = None ∧ lastSequence s3 = lastSequence s2.
Proof.
  intros body.
  assert (∀ now,
     let sending := publish_send AwaitUnsubscribe body now in
     lastSequence sending.1 = lastSequence now ∧
     listener sending.1 = listener now ∧
     sending.2 = [ws_send SitePublish (request_frame now body)] ∧
     resolveMe <$>
       waitingOperations sending.1 !! ToPropertyKey (Some (JNum (cMsgId now + 1)))
       = Some AwaitUnsubscribe) as Hsending.
  { intros now. cbn zeta. split_and!; [done..|].
    cbn [publish_send fst waitingOperations set_waitingOperations set_cMsgId cMsgId].
    by rewrite lookup_insert_eq. }
  assert (∀ msg json s2 entry,
    JSON_parse msg = Some json →
    ToBoolean (Get json "pub") = false →
    ToBoolean (Get json "cMsgId") = true →
    waitingOperations s2 !! ToPropertyKey (Get json "cMsgId") = Some entry →
    resolveMe entry = AwaitUnsubscribe →
    let s3 := (on_message msg s2).1.1 in
    listener s3 = None ∧ lastSequence s3 = lastSequence s2) as Hanswer.
  { intros msg json s2 entry Hparse Hpub Hid Hentry Hk.
    rewrite (on_message_response msg json s2 entry) by done.
    by rewrite Hk. }
  assert (isConnected s = true →
     unsubscribe later s =
       ((publish_send AwaitUnsubscribe body s).1,
        [ws_send SitePublish (request_frame s body)], AwaitsResponse)) as Hnow.
  { intros Hc. unfold unsubscribe, publish. by rewrite canSend_connected. }
  unfold unsubscribe, publish in *.
  pose proof (canSend_only_logs (observe s later)) as [Hsent _].
  destruct (canSend (observe s later)) as [[] ls]; cbn [fst snd] in *.
  - split_and!; try done.
    + exists (request_frame s body). by rewrite sent_app, Hsent.
    + eexists. apply (Hsending s).
  - split_and!; try done.
Qed.

(** ** What each segment does to the fields *)

Lemma publish_cases k later body s :
  (∃ ls, sent ls = [] ∧ request_ids ls = [] ∧
         publish k later body s =
           ((publish_send k body s).1, ls ++ (publish_send k body s).2,
            AwaitsResponse)) ∨
  (∃ ls, sent ls = [] ∧ request_ids ls = [] ∧
         publish k later body s = (s, ls, Returns (Some soft_error))).
Proof.
  unfold publish.
  pose proof (canSend_only_logs (observe s later)) as [Hsent Hids].
  destruct (canSend (observe s later)) as [[] ls]; simpl in *; eauto 10.
Qed.

Lemma publish_connected k later body s :
  isConnected s = true →
  publish k later body s =
    ((publish_send k body s).1, (publish_send k body s).2, AwaitsResponse).
Proof. intros H. unfold publish. by rewrite canSend_connected. Qed.

Lemma request_ids_publish_send k body s :
  request_ids (publish_send k body s).2 = [cMsgId s + 1].
Proof. by destruct body. Qed.

Lemma init_poll_fields r s :
  let s' := (init_poll r s).1.1 in
  reconnects s' = reconnects s ∧ lastSequence s' = lastSequence s ∧
  listener s' = listener s ∧ cMsgId s' = cMsgId s ∧ clientId s' = clientId s ∧
  wsUrl s' = wsUrl s ∧ waitingOperations s' = waitingOperations s ∧
  sent (init_poll r s).1.2 = [] ∧ request_ids (init_poll r s).1.2 = [].
Proof. by destruct r. Qed.

Lemma init_settled_unsubscribed s :
  listener s = None →
  init_settled s =
    (set_isConnected true (set_reconnects (reconnects s + 1)%Z s),
     [console_log (LogConnected (wsUrl s) (reconnects s + 1));
      addEventListeners (ws s)]).
Proof.
  intros H. unfold init_settled. cbn zeta.
  change (listener (set_isConnected true (set_reconnects (reconnects s + 1)%Z s)))
    with (listener s).
  by rewrite H.
Qed.

Lemma init_settled_subscribed s h :
  listener s = Some h →
  let s1 := set_isConnected true (set_reconnects (reconnects s + 1)%Z s) in
  let body :=
    Some (object [("cmd", Some (JStr "subscribe"));
                  ("startSequence", lastSequence s)]) in
  init_settled s =
    (set_listener (Some h)
       (set_lastSequence (lastSequence s) (publish_send AwaitNobody body s1).1),
     [console_log (LogConnected (wsUrl s) (reconnects s + 1));
      console_log (LogReestablishing (lastSequence s));
      addEventListeners (ws s);
      ws_send SitePublish (subscribe_request s)]).
Proof.
  intros H. unfold init_settled. cbn zeta.
  change (listener (set_isConnected true (set_reconnects (reconnects s + 1)%Z s)))
    with (listener s).
  rewrite H. unfold subscribe. by rewrite publish_connected.
Qed.

Lemma init_settled_fields s :
  let s' := (init_settled s).1 in
  reconnects s' = (reconnects s + 1)%Z ∧ lastSequence s' = lastSequence s ∧
  listener s' = listener s ∧ isConnected s' = true ∧
  (init_settled s).2 !! 0%nat =
    Some (console_log (LogConnected (wsUrl s) (reconnects s + 1))).
Proof.
  destruct (listener s) as [h|] eqn:Hl.
  - rewrite (init_settled_subscribed s h) by done. simpl. by rewrite ?Hl.
  - rewrite init_settled_unsubscribed by done. simpl. by rewrite ?Hl.
Qed.

Lemma on_message_fields msg s :
  let s' := (on_message msg s).1.1 in
  reconnects s' = reconnects s ∧ lastSequence s' = lastSequence s ∧
  cMsgId s' = cMsgId s ∧ request_ids (on_message msg s).1.2 = [].
Proof.
  destruct msg as [raw|[| | | | |fields]]; try done.
  rewrite on_message_object. cbn zeta.
  repeat case_match; simpl;
    rewrite ?resume_reconnects, ?resume_lastSequence, ?resume_cMsgId; done.
Qed.

(** The counter moves in [init_settled] only. *)
Lemma step_reconnects o s :
  reconnects (step o s).1 =
    (reconnects s + if o is OInitSettled then 1 else 0)%Z.
Proof.
  destruct o as [|r| |msg|frame|k later body|k body|later start h|later];
    cbn [step].
  - simpl. lia.
  - pose proof (init_poll_fields r s) as (H & _).
    destruct (init_poll r s) as [[??]?]. simpl in *. lia.
  - apply init_settled_fields.
  - pose proof (on_message_fields msg s) as (H & _).
    destruct (on_message msg s) as [[??]?]. simpl in *. lia.
  - simpl. lia.
  - destruct (publish_cases k later body s) as [(ls & _ & _ & ->)|(ls & _ & _ & ->)];
      simpl; lia.
  - simpl. lia.
  - unfold subscribe.
    destruct (publish_cases AwaitNobody later
                (Some (object [("cmd", Some (JStr "subscribe")); ("startSequence", start)])) s)
      as [(ls & _ & _ & ->)|(ls & _ & _ & ->)]; simpl; lia.
  - unfold unsubscribe.
    destruct (publish_cases AwaitUnsubscribe later
                (Some (object [("cmd", Some (JStr "unsubscribe"))])) s)
      as [(ls & _ & _ & ->)|(ls & _ & _ & ->)]; simpl; lia.
Qed.

Lemma run_cons o os s :
  run (o :: os) s =
    ((run os (step o s).1).1, (step o s).2 ++ (run os (step o s).1).2).
Proof.
  cbn [run]. destruct (step o s) as [s1 es1]. cbn [fst snd].
  by destruct (run os s1).
Qed.

Lemma run_reconnects os s :
  reconnects (run os s).1 = (reconnects s + establishments os)%Z.
Proof.
  revert s. induction os as [|o os IH]; intros s; [simpl; lia|].
  rewrite run_cons. simpl fst. rewrite IH, step_reconnects.
  destruct o; simpl; lia.
Qed.

Lemma init_poll_settling r s : (init_poll r s).2 = bool_decide (r = OPEN).
Proof. by destruct r. Qed.

Lemma init_open polls s :
  OPEN ∈ polls →
  ∃ s1 es, init polls s = ((init_settled s1).1, es, true) ∧
        reconnects s1 = reconnects s ∧ lastSequence s1 = lastSequence s ∧
        listener s1 = listener s ∧ cMsgId s1 = cMsgId s ∧
        clientId s1 = clientId s ∧ wsUrl s1 = wsUrl s ∧
        waitingOperations s1 = waitingOperations s ∧
        sent es = sent (init_settled s1).2 ∧
        ∀ e, e ∈ (init_settled s1).2 → e ∈ es.
Proof.
  revert s. induction polls as [|r polls IH]; intros s Hin.
  { by apply elem_of_nil in Hin. }
  cbn [init].
  pose proof (init_poll_fields r s) as (H1 & H2 & H3 & H4 & H5 & H6 & H7 & H8 & _).
  pose proof (init_poll_settling r s) as Hset.
  destruct (init_poll r s) as [[s1 es1] settling]. cbn [fst snd] in *.
  subst settling. case_bool_decide as Hr.
  - exists s1. destruct (init_settled s1) as [s2 es2]. cbn [fst snd].
    eexists. split; [done|]. rewrite sent_app, H8.
    split_and!; try done. intros e He. apply elem_of_app; by right.
  - assert (OPEN ∈ polls) as Hin'.
    { apply elem_of_cons in Hin as [?|?]; [congruence|done]. }
    destruct (IH s1 Hin') as (s2 & es & Hinit & ? & ? & ? & ? & ? & ? & ? & Hsent & Hes).
    exists s2. rewrite Hinit. eexists. split; [done|].
    rewrite sent_app, H8, Hsent.
    split_and!; try done; try congruence.
    intros e He. apply elem_of_app; right; auto.
Qed.

Lemma init_waiting polls s :
  OPEN ∉ polls →
  ∃ s' es, init polls s = (s', es, false) ∧ reconnects s' = reconnects s.
Proof.
  revert s. induction polls as [|r polls IH]; intros s Hin; [by eauto|].
  apply not_elem_of_cons in Hin as [Hr Hin].
  cbn [init]. pose proof (init_poll_fields r s) as (H1 & _).
  pose proof (init_poll_settling r s) as Hset.
  destruct (init_poll r s) as [[s1 es1] settling]. cbn [fst snd] in *.
  subst settling. rewrite bool_decide_false by done.
  destruct (IH s1 Hin) as (s' & es & -> & Hs'). do 2 eexists. split; [done|].
  congruence.
Qed.

(** ** The reconnect counter *)

(** The counter counts calls of [init], not sockets.  It is [-1] in a new
    session; every call of [init] that completes adds exactly one to it,
    whatever ready states its loop has polled, and logs the new value; no
    other segment writes it.  So after any run the counter is the number of
    completed calls of [init] minus one, and the first one reports 0. *)
Lemma reconnect_counter obj rand s0 :
  constructor obj rand = inl s0 →
  reconnects s0 = (-1)%Z ∧
  (∀ os, reconnects (run os s0).1 = (establishments os - 1)%Z) ∧
  (∀ polls s, OPEN ∈ polls →
     ∃ s' es, init polls s = (s', es, true) ∧
              reconnects s' = (reconnects s + 1)%Z ∧
              console_log (LogConnected (wsUrl s) (reconnects s + 1)) ∈ es) ∧
  (∀ polls s, OPEN ∉ polls →
     ∃ s' es, init polls s = (s', es, false) ∧ reconnects s' = reconnects s) ∧
  (∀ polls, OPEN ∈ polls →
     ∃ s' es, init polls s0 = (s', es, true) ∧ reconnects s' = 0%Z ∧
              console_log (LogConnected (wsUrl s0) 0) ∈ es).
Proof.
  intros Hnew. unfold constructor in Hnew. case_decide; [done|].
  injection Hnew as <-.
  assert (∀ polls s, OPEN ∈ polls →
     ∃ s' es, init polls s = (s', es, true) ∧
              reconnects s' = (reconnects s + 1)%Z ∧
              console_log (LogConnected (wsUrl s) (reconnects s + 1)) ∈ es) as Hinit.
  { intros polls s Hin.
    destruct (init_open polls s Hin) as (s1 & es & -> & Hr & _ & _ & _ & _ & Hu & _ & _ & Hes).
    pose proof (init_settled_fields s1) as (Hc & _ & _ & _ & Hlog).
    do 2 eexists. split_and!; [done|cbn zeta in Hc; lia|].
    apply Hes. rewrite Hr, Hu in Hlog. by eapply list_elem_of_lookup_2. }
  split_and!; [done| |done| |].
  - intros os. rewrite run_reconnects. simpl. lia.
  - apply init_waiting.
  - intros polls Hin. apply (Hinit polls (new_session obj rand) Hin).
Qed.

(** ** Resuming the subscription *)

Lemma start_of_subscribe_request s : start_of (subscribe_request s) = lastSequence s.
Proof. unfold start_of, subscribe_request. by destruct (lastSequence s). Qed.

(** ** The cursor *)

Lemma cursor_le_refl a : cursor_le a a.
Proof. destruct a as [[]|]; simpl; done. Qed.

Lemma cursor_le_trans a b c : cursor_le a b → cursor_le b c → cursor_le a c.
Proof.
  unfold cursor_le. intros Hab Hbc.
  destruct a as [[| |x| | |]|], b as [[| |y| | |]|]; simplify_eq; try done.
  destruct c as [[| |z| | |]|]; simplify_eq; try done.
  by eapply Qcle_trans.
Qed.

Lemma publish_lastSequence k later body s :
  lastSequence (publish k later body s).1.1 = lastSequence s.
Proof.
  by destruct (publish_cases k later body s) as [(ls & _ & _ & ->)|(ls & _ & _ & ->)].
Qed.

Lemma subscribe_lastSequence later start h s :
  lastSequence (subscribe later start h s).1.1 = start.
Proof. unfold subscribe. by destruct (publish _ _ _ _) as [[??]?]. Qed.

Lemma unsubscribe_lastSequence later s :
  lastSequence (unsubscribe later s).1.1 = lastSequence s.
Proof.
  unfold unsubscribe.
  by destruct (publish_cases AwaitUnsubscribe later
                 (Some (object [("cmd", Some (JStr "unsubscribe"))])) s)
    as [(ls & _ & _ & ->)|(ls & _ & _ & ->)].
Qed.

(** Apart from [ack] and [subscribe], no segment writes the cursor. *)
Lemma step_lastSequence o s :
  lastSequence (step o s).1 =
    match o with
    | OAck frame => Get frame "sequence"
    | OSubscribe _ start _ => start
    | _ => lastSequence s
    end.
Proof.
  destruct o as [|r| |msg|frame|k later body|k body|later start h|later];
    cbn [step]; try done.
  - pose proof (init_poll_fields r s) as (_ & H & _).
    by destruct (init_poll r s) as [[??]?].
  - apply init_settled_fields.
  - pose proof (on_message_fields msg s) as (_ & H & _).
    by destruct (on_message msg s) as [[??]?].
  - pose proof (publish_lastSequence k later body s) as H.
    by destruct (publish k later body s) as [[??]?].
  - pose proof (subscribe_lastSequence later start h s) as H.
    by destruct (subscribe later start h s) as [[??]?].
  - pose proof (unsubscribe_lastSequence later s) as H.
    by destruct (unsubscribe later s) as [[??]?].
Qed.

(** The cursor does not go down along a run whose acknowledgments and
    subscriptions are in order. *)
Lemma in_order_run os s :
  in_order os s → cursor_le (lastSequence s) (lastSequence (run os s).1).
Proof.
  revert s. induction os as [|o os IH]; intros s Hord.
  { apply cursor_le_refl. }
  destruct Hord as [Ho Hord]. rewrite run_cons. cbn [fst].
  eapply cursor_le_trans; [|by apply IH].
  rewrite step_lastSequence. destruct o; try done; apply cursor_le_refl.
Qed.

(** C7, as the code has it.  Whenever [init] completes while a handler is
    registered, it sends one frame: a subscribe request whose
    [startSequence] is the cursor [lastSequence] of that moment, under the
    next request id.  The same handler stays registered and the cursor is
    not moved.  The request is made in the segment that ends the settle
    delay, from the state [now] that the session has then.  The cursor is
    the value last written: when that write was the acknowledgment of a
    frame, the resumed subscription starts at that frame's sequence, and
    when it was a [subscribe], at its start sequence.  After the
    acknowledgment of a frame with sequence S the resumed subscription
    starts at S or above if the acknowledgments and subscriptions that came
    after it were in order. *)
Theorem resubscribe_after_reconnect polls s h :
  listener s = Some h →
  OPEN ∈ polls →
  (∃ s' es, init polls s = (s', es, true) ∧
            sent es = [subscribe_request s] ∧
            start_of (subscribe_request s) = lastSequence s ∧
            listener s' = Some h ∧
            lastSequence s' = lastSequence s ∧
            isConnected s' = true) ∧
  (∀ frame, ∃ s' es request,
            init polls (ack frame s).1 = (s', es, true) ∧
            sent es = [request] ∧
            start_of request = Get frame "sequence" ∧
            listener s' = Some h) ∧
  (∀ now, listener now = Some h →
          sent (init_settled now).2 = [subscribe_request now] ∧
          start_of (subscribe_request now) = lastSequence now ∧
          listener (init_settled now).1 = Some h ∧
          lastSequence (init_settled now).1 = lastSequence now) ∧
  (∀ later start h' before,
     start_of (subscribe_request (subscribe later start h' before).1.1) = start) ∧
  (∀ before frame os,
     s = (run os (ack frame before).1).1 →
     in_order os (ack frame before).1 →
     cursor_le (Get frame "sequence") (start_of (subscribe_request s))).
Proof.
  intros Hl Hopen.
  assert (∀ s, listener s = Some h →
    ∃ s' es, init polls s = (s', es, true) ∧
             sent es = [subscribe_request s] ∧
             start_of (subscribe_request s) = lastSequence s ∧
             listener s' = Some h ∧ lastSequence s' = lastSequence s ∧
             isConnected s' = true) as Hgen.
  { clear s Hl. intros s Hl.
    destruct (init_open polls s Hopen)
      as (s1 & es & -> & _ & Hseq & Hl1 & Hid & Hcl & _ & _ & Hsent & _).
    rewrite Hl in Hl1.
    pose proof (init_settled_fields s1) as (_ & Hseq' & Hl' & Hc & _).
    cbn zeta in *. do 2 eexists. split; [done|].
    split_and!; try congruence.
    - rewrite Hsent, (init_settled_subscribed s1 h) by done. simpl.
      unfold subscribe_request. by rewrite Hseq, Hid, Hcl.
    - apply start_of_subscribe_request. }
  split_and!; [by apply Hgen| | | |].
  - intros frame.
    destruct (Hgen (ack frame s).1) as (s' & es & ? & ? & ? & ? & _); [done|].
    by exists s', es, (subscribe_request (ack frame s).1).
  - intros now Hnow.
    pose proof (init_settled_fields now) as (_ & Hseq & Hh & _).
    cbn zeta in *. split_and!; [|apply start_of_subscribe_request|congruence|done].
    rewrite (init_settled_subscribed now h) by done. simpl.
    unfold subscribe_request. by destruct (lastSequence now).
  - intros later start h' before.
    by rewrite start_of_subscribe_request, subscribe_lastSequence.
  - intros before frame os -> Hord.
    rewrite start_of_subscribe_request.
    by apply (in_order_run os (ack frame before).1).
Qed.

(** C1, as the code has it.  The acknowledgment closure of a frame writes
    that frame's sequence into the cursor, whatever the cursor was, and
    calling it again at once changes nothing; [subscribe] writes its
    [startSequence], whatever the cursor was.  No other segment writes the
    cursor, the resubscription of [init] included.  So the cursor never
    decreases along a run in which every acknowledged sequence and every
    [startSequence] is at least the cursor of the moment. *)
Theorem cursor_follows_ack_and_subscribe :
  (∀ frame s,
     lastSequence (ack frame s).1 = Get frame "sequence" ∧
     (ack frame (ack frame s).1).1 = (ack frame s).1) ∧
  (∀ later start h s, lastSequence (subscribe later start h s).1.1 = start) ∧
  (∀ s, lastSequence (init_settled s).1 = lastSequence s) ∧
  (∀ o s,
     (∀ frame, o ≠ OAck frame) →
     (∀ later start h, o ≠ OSubscribe later start h) →
     lastSequence (step o s).1 = lastSequence s) ∧
  (∀ os s, in_order os s → cursor_le (lastSequence s) (lastSequence (run os s).1)).
Proof.
  split_and!.
  - done.
  - apply subscribe_lastSequence.
  - intros s. apply init_settled_fields.
  - intros o s Hack Hsub. rewrite step_lastSequence.
    destruct o as [| | | |frame| | |later start h|]; try done.
    + by destruct (Hack frame).
    + by destruct (Hsub later start h).
  - intros os. induction os as [|o os IH]; intros s Hord.
    { apply cursor_le_refl. }
    destruct Hord as [Ho Hord]. rewrite run_cons. cbn [fst].
    eapply cursor_le_trans; [|by apply IH].
    rewrite step_lastSequence. destruct o; try done; apply cursor_le_refl.
Qed.

(** ** Request ids *)

Lemma ack_fields frame s :
  cMsgId (ack frame s).1 = cMsgId s ∧ request_ids (ack frame s).2 = [].
Proof. done. Qed.

(** A segment takes no request id, or the next one. *)
Lemma step_request_ids o s :
  (request_ids (step o s).2 = [] ∧ cMsgId (step o s).1 = cMsgId s) ∨
  (request_ids (step o s).2 = [cMsgId s + 1] ∧
   cMsgId (step o s).1 = cMsgId s + 1).
Proof.
  destruct o as [|r| |msg|frame|k later body|k body|later start h|later];
    cbn [step].
  - by left.
  - left. pose proof (init_poll_fields r s) as (_ & _ & _ & H & _ & _ & _ & _ & H').
    by destruct (init_poll r s) as [[??]?].
  - destruct (listener s) as [h|] eqn:Hl.
    + right. rewrite (init_settled_subscribed s h) by done. simpl.
      by destruct (lastSequence s).
    + left. by rewrite init_settled_unsubscribed.
  - left. pose proof (on_message_fields msg s) as (_ & _ & H & H').
    by destruct (on_message msg s) as [[??]?].
  - by left.
  - destruct (publish_cases k later body s)
      as [(ls & _ & Hids & ->)|(ls & _ & Hids & ->)]; [right|by left].
    cbn [fst snd]. by rewrite request_ids_app, Hids, request_ids_publish_send.
  - right. by rewrite request_ids_publish_send.
  - unfold subscribe.
    destruct (publish_cases AwaitNobody later
                (Some (object [("cmd", Some (JStr "subscribe")); ("startSequence", start)])) s)
      as [(ls & _ & Hids & ->)|(ls & _ & Hids & ->)]; [right|by left].
    cbn [fst snd]. by rewrite request_ids_app, Hids, request_ids_publish_send.
  - unfold unsubscribe.
    destruct (publish_cases AwaitUnsubscribe later
                (Some (object [("cmd", Some (JStr "unsubscribe"))])) s)
      as [(ls & _ & Hids & ->)|(ls & _ & Hids & ->)]; [right|by left].
    cbn [fst snd]. by rewrite request_ids_app, Hids, request_ids_publish_send.
Qed.

Lemma nth_id_0 c : nth_id c 0 = c.
Proof.
  unfold nth_id. change (Z.of_nat 0) with 0%Z.
  by rewrite Z2Qc_inj_0, Qcplus_0_r.
Qed.

Lemma nth_id_S c i : nth_id c (S i) = nth_id (c + 1) i.
Proof.
  unfold nth_id. rewrite Nat2Z.inj_succ, <-Z.add_1_l, Z2Qc_inj_add, Z2Qc_inj_1.
  by rewrite Qcplus_assoc.
Qed.

Lemma nth_id_lt c i j : (i < j)%nat → nth_id c i < nth_id c j.
Proof.
  intros Hij. unfold nth_id.
  apply (proj1 (Qcplus_lt_mono_l _ _ _)), (proj1 (Z2Qc_inj_lt _ _)). lia.
Qed.

Lemma nth_id_sorted c from n : StronglySorted Qclt (nth_id c <$> seq from n).
Proof.
  revert from. induction n as [|n IH]; intros from; simpl; constructor; [done|].
  apply Forall_forall. intros x (i & -> & Hi)%list_elem_of_fmap.
  apply elem_of_seq in Hi. apply nth_id_lt. lia.
Qed.

(** The requests of a run take the ids that follow the counter, one by
    one. *)
Lemma run_request_ids os s :
  ∃ n, request_ids (run os s).2 = nth_id (cMsgId s) <$> seq 1 n ∧
       cMsgId (run os s).1 = nth_id (cMsgId s) n.
Proof.
  revert s. induction os as [|o os IH]; intros s.
  { exists 0%nat. by rewrite nth_id_0. }
  rewrite run_cons. cbn [fst snd]. rewrite request_ids_app.
  destruct (IH (step o s).1) as (n & -> & ->).
  destruct (step_request_ids o s) as [[-> ->]|[-> ->]].
  - by exists n.
  - exists (S n). cbn [seq fmap list_fmap app]. split; [|by rewrite nth_id_S].
    rewrite nth_id_S, nth_id_0. f_equal.
    rewrite <-(fmap_S_seq 1), <-list_fmap_compose.
    apply list_fmap_ext. intros _ i _. simpl. by rewrite nth_id_S.
Qed.

(** C8, as the code has it.  The counter starts at the value of
    [Math.random()], a number from 0 up to but not including 1, and each
    request takes the counter plus one.  The ids of a session are
    therefore strictly increasing, in the order in which the requests are
    sent, and never repeat.  The statement is for a session of fewer than
    2^53 requests: up to there the numbers of the program, which are
    doubles, are no more than one apart, so that adding one raises them as
    it raises these. *)
Theorem request_ids_strictly_increasing obj rand s0 os :
  constructor obj rand = inl s0 →
  0 ≤ rand → rand < 1 →
  let ids := request_ids (run os s0).2 in
  (Z.of_nat (length ids) < 2 ^ 53)%Z →
  StronglySorted Qclt ids ∧ NoDup ids.
Proof.
  intros Hnew _ _. unfold constructor in Hnew. case_decide; [done|].
  injection Hnew as <-. cbn zeta. intros _.
  destruct (run_request_ids os (new_session obj rand)) as (n & Hids & _).
  change (cMsgId (new_session obj rand)) with rand in Hids. rewrite Hids.
  split; [apply nth_id_sorted|].
  apply NoDup_fmap_2, NoDup_seq.
  intros i j Hij. unfold nth_id in Hij. apply (inj (Qcplus rand)) in Hij.
  apply Z2Qc_inj in Hij. lia.
Qed.

(** * Further properties of the class *)

(** ** How long canSend waits *)

(** The loop of [canSend] stops at the first read, from [tries] on, that
    finds the session connected, or at 21; it logs one line for every
    sleep. *)
Lemma canSend_loop_first reads fuel tries :
  (fuel + tries = 21)%nat →
  let '(t, ls) := canSend_loop fuel reads tries in
  (tries ≤ t ≤ 21)%nat ∧
  ls = waiting_lines (S tries) (t - tries) ∧
  (∀ i, (tries ≤ i < t)%nat → reads i = false) ∧
  ((t ≤ 20)%nat → reads t = true).
Proof.
  revert tries. induction fuel as [|fuel IH]; intros tries Hsum.
  - assert (tries = 21%nat) as -> by lia. simpl.
    destruct (reads 21%nat); (split_and!; [lia|lia|done|intros; lia|lia]).
  - cbn [canSend_loop]. destruct (reads tries) eqn:Hread.
    { rewrite Nat.sub_diag. split_and!; [lia|lia|done|intros; lia|done]. }
    destruct (Nat.ltb_spec 20 (S tries)) as [Hlt|Hge].
    + assert (tries = 20%nat) as -> by lia.
      split_and!; [lia|lia|done| |lia].
      intros i Hi. by assert (i = 20%nat) as -> by lia.
    + specialize (IH (S tries)).
      destruct (canSend_loop fuel reads (S tries)) as [t ls].
      destruct IH as (Ht & -> & Hfalse & Htrue); [lia|].
      split_and!; [lia|lia| | |done].
      * replace (t - tries)%nat with (S (t - S tries)) by lia. done.
      * intros i Hi. destruct (decide (i = tries)) as [->|]; [done|].
        apply Hfalse. lia.
Qed.

(** X1.  [canSend] answers yes exactly when one of its first 20 reads of
    [isConnected], the one at the call and those after the sleeps 1 to 19,
    finds the session connected.  A connection that is first seen at the
    read after the 20th sleep ends the loop and is still answered with no.
    So [publish] sends exactly when the session is connected at the call or
    at one of the reads 1 to 19. *)
Theorem canSend_succeeds_within_19_sleeps reads :
  ((canSend reads).1 = true ↔ ∃ i, (i ≤ 19)%nat ∧ reads i = true) ∧
  ((∀ i, (i ≤ 19)%nat → reads i = false) → reads 20%nat = true →
   canSend reads = (false, waiting_lines 1 20)) ∧
  (∀ k later body s,
     (publish k later body s).2 = AwaitsResponse ↔
     isConnected s = true ∨ ∃ i, (1 ≤ i ≤ 19)%nat ∧ later i = true).
Proof.
  assert (∀ reads, (canSend reads).1 = true ↔ ∃ i, (i ≤ 19)%nat ∧ reads i = true)
    as Hiff.
  { clear reads. intros reads. unfold canSend.
    pose proof (canSend_loop_first reads 21 0 eq_refl) as H.
    destruct (canSend_loop 21 reads 0) as [t ls].
    destruct H as (Ht & _ & Hfalse & Htrue). cbn [fst]. split.
    - intros Hlt%Nat.ltb_lt. exists t. split; [lia|]. apply Htrue. lia.
    - intros (i & Hi & Hread). apply Nat.ltb_lt.
      destruct (decide (t ≤ i)%nat); [lia|].
      rewrite Hfalse in Hread by lia. done. }
  split_and!; [done| |].
  - intros Hfalse Htrue. unfold canSend.
    pose proof (canSend_loop_first reads 21 0 eq_refl) as H.
    destruct (canSend_loop 21 reads 0) as [t ls].
    destruct H as (Ht & -> & Hfalse' & Htrue').
    assert (t = 20%nat) as ->; [|done].
    destruct (decide (t ≤ 19)%nat) as [Hle|Hgt].
    { rewrite Hfalse in Htrue' by done. discriminate Htrue'. lia. }
    destruct (decide (t = 21)%nat) as [->|]; [|lia].
    rewrite Hfalse' in Htrue by lia. done.
  - intros k later body s. unfold publish.
    specialize (Hiff (observe s later)).
    destruct (canSend (observe s later)) as [ok ls]. cbn [fst] in Hiff.
    assert ((∃ i, (i ≤ 19)%nat ∧ observe s later i = true) ↔
            isConnected s = true ∨ ∃ i, (1 ≤ i ≤ 19)%nat ∧ later i = true) as <-.
    { split.
      - intros ([|i] & Hi & Hread); [by left|]. right. exists (S i). split; [lia|done].
      - intros [Hc|(i & Hi & Hread)]; [by exists 0%nat; split; [lia|]|].
        exists i. split; [lia|]. destruct i; [lia|done]. }
    rewrite <-Hiff. destruct ok; [|done].
    by destruct (publish_send k body s).
Qed.

(** X2.  [canSend] sleeps at most 21 times, 10.5 seconds, and logs one
    line per sleep: it sleeps until the first read that finds the session
    connected, and gives up after the 21st sleep without reading again. *)
Theorem canSend_sleeps_at_most_21_times reads :
  ∃ sleeps, (sleeps ≤ 21)%nat ∧
    (canSend reads).2 = waiting_lines 1 sleeps ∧
    length (canSend reads).2 = sleeps ∧
    (∀ i, (i < sleeps)%nat → reads i = false) ∧
    ((sleeps ≤ 20)%nat → reads sleeps = true) ∧
    (canSend reads).1 = bool_decide (sleeps < 20)%nat.
Proof.
  unfold canSend.
  pose proof (canSend_loop_first reads 21 0 eq_refl) as H.
  destruct (canSend_loop 21 reads 0) as [t ls].
  destruct H as (Ht & -> & Hfalse & Htrue). exists t. cbn [fst snd].
  rewrite Nat.sub_0_r. split_and!; [lia|done| | |done|].
  - unfold waiting_lines. by rewrite length_fmap, length_seq.
  - intros i Hi. apply Hfalse. lia.
  - destruct (Nat.ltb_spec t 20).
    + by rewrite bool_decide_true.
    + by rewrite bool_decide_false by lia.
Qed.

(** ** Requests and their responses *)

Lemma nth_id_nonneg seed i : 0 ≤ seed → 0 ≤ nth_id seed i.
Proof.
  intros H. unfold nth_id. apply Qcplus_nonneg_nonneg; [done|].
  rewrite <-Z2Qc_inj_0. apply (proj1 (Z2Qc_inj_le _ _)). lia.
Qed.

(** The id that follows a counter which is not negative is truthy. *)
Lemma next_id_truthy (c : Qc) : 0 ≤ c → ToBoolean (Some (JNum (c + 1))) = true.
Proof.
  intros Hc. simpl. apply bool_decide_eq_true. intros Hzero.
  assert (0 < c + 1) as Hpos by (by apply Qcplus_nonneg_pos).
  rewrite Hzero in Hpos. by apply Qclt_not_eq in Hpos.
Qed.

Lemma resume_set_waitingOperations k m s :
  resume k (set_waitingOperations m s) = set_waitingOperations m (resume k s).
Proof. by destruct k. Qed.

Lemma set_waitingOperations_id s : set_waitingOperations (waitingOperations s) s = s.
Proof. by destruct s. Qed.

Lemma response_undoes_registration_aux k body s json :
  0 ≤ cMsgId s →
  waitingOperations s !! ToPropertyKey (Some (JNum (cMsgId s + 1))) = None →
  ToBoolean (Get json "pub") = false →
  Get json "cMsgId" = Some (JNum (cMsgId s + 1)) →
  on_message (Text json) (publish_send k body s).1 =
    (resume k (set_cMsgId (cMsgId s + 1) s), [resolved k json], Done) ∧
  waitingOperations (on_message (Text json) (publish_send k body s).1).1.1 =
    waitingOperations s.
Proof.
  intros Hc Hfree Hpub Hid. set (id := cMsgId s + 1) in *.
  assert (on_message (Text json) (publish_send k body s).1 =
            (resume k (set_cMsgId id s), [resolved k json], Done)) as Hstep.
  { rewrite (on_message_response (Text json) json _
               (Pending k body id (clientId s))); try done.
    - rewrite Hid. cbn [publish_send fst waitingOperations set_waitingOperations
        set_cMsgId cMsgId clientId resolveMe]. fold id.
      rewrite delete_insert_id by done. by destruct s, k.
    - rewrite Hid. by apply next_id_truthy.
    - rewrite Hid. cbn. fold id. by rewrite lookup_insert_eq. }
  split; [done|]. rewrite Hstep. cbn [fst].
  by rewrite resume_waitingOperations.
Qed.

(** X3.  A request and its response, in a session whose counter is not
    negative.  [publish_send] registers the request under a key that was
    free.  When a frame without a [pub] tag then brings back the id of the
    request, the handler resolves that request's promise with the frame and
    the map of pending requests is again what it was before the request:
    of the two steps only the advanced counter is left (and what the
    awaiter does on resuming). *)
Theorem response_undoes_registration k body s json :
  let id := cMsgId s + 1 in
  0 ≤ cMsgId s →
  waitingOperations s !! ToPropertyKey (Some (JNum id)) = None →
  ToBoolean (Get json "pub") = false →
  Get json "cMsgId" = Some (JNum id) →
  on_message (Text json) (publish_send k body s).1 =
    (resume k (set_cMsgId id s), [resolved k json], Done) ∧
  waitingOperations (on_message (Text json) (publish_send k body s).1).1.1 =
    waitingOperations s.
Proof. intros id. apply response_undoes_registration_aux. Qed.

(** X4.  Two requests in flight, answered in the reverse order.  When the
    platform prints the two ids differently and both keys were free, the
    response to the second request resolves the second promise and the
    response to the first resolves the first, each with its own frame, and
    the map of pending requests ends as it began. *)
Theorem responses_in_reverse_order k1 body1 k2 body2 s json1 json2 :
  let id1 := cMsgId s + 1 in
  let id2 := cMsgId s + 1 + 1 in
  0 ≤ cMsgId s →
  Number_toString id1 ≠ Number_toString id2 →
  waitingOperations s !! Number_toString id1 = None →
  waitingOperations s !! Number_toString id2 = None →
  ToBoolean (Get json1 "pub") = false → Get json1 "cMsgId" = Some (JNum id1) →
  ToBoolean (Get json2 "pub") = false → Get json2 "cMsgId" = Some (JNum id2) →
  let '(s', es) :=
    run [OSend k1 body1; OSend k2 body2;
         OMessage (Text json2); OMessage (Text json1)] s in
  resolutions es = [(k2, json2); (k1, json1)] ∧
  waitingOperations s' = waitingOperations s ∧
  cMsgId s' = id2.
Proof.
  intros id1 id2 Hc Hne Hfree1 Hfree2 Hpub1 Hid1 Hpub2 Hid2.
  set (s1 := (publish_send k1 body1 s).1).
  assert (0 ≤ cMsgId s1) as Hc1.
  { change (cMsgId s1) with (cMsgId s + 1). by apply Qcplus_nonneg_nonneg. }
  assert (waitingOperations s1 !! ToPropertyKey (Some (JNum (cMsgId s1 + 1))) = None)
    as Hfree2'.
  { change (waitingOperations s1)
      with (<[Number_toString id1 := Pending k1 body1 id1 (clientId s)]>
              (waitingOperations s)).
    change (ToPropertyKey (Some (JNum (cMsgId s1 + 1)))) with (Number_toString id2).
    by rewrite lookup_insert_ne. }
  destruct (response_undoes_registration_aux k2 body2 s1 json2 Hc1 Hfree2' Hpub2 Hid2)
    as [Hstep2 Hmap2].
  set (s2 := (publish_send k2 body2 s1).1) in *.
  set (s3 := resume k2 (set_cMsgId (cMsgId s1 + 1) s1)) in *.
  assert (on_message (Text json1) s3 =
            (resume k1 (set_waitingOperations
               (delete (Number_toString id1) (waitingOperations s3)) s3),
             [resolved k1 json1], Done)) as Hstep1.
  { rewrite (on_message_response (Text json1) json1 s3
               (Pending k1 body1 id1 (clientId s))); try done.
    - by rewrite Hid1.
    - rewrite Hid1. by apply next_id_truthy.
    - rewrite Hid1. unfold s3. rewrite resume_waitingOperations.
      cbn. by rewrite lookup_insert_eq. }
  rewrite !run_cons. cbn [step run fst snd]. fold s1. fold s2.
  rewrite Hstep2. cbn [fst snd]. rewrite Hstep1. cbn [fst snd].
  rewrite !publish_send_effects. cbn [resolutions app].
  split_and!; [done| |].
  - rewrite resume_waitingOperations. cbn [waitingOperations set_waitingOperations].
    unfold s3. rewrite resume_waitingOperations.
    cbn [waitingOperations set_cMsgId]. unfold s1.
    cbn [publish_send fst waitingOperations set_waitingOperations set_cMsgId].
    by apply delete_insert_id.
  - rewrite resume_cMsgId. cbn [cMsgId set_waitingOperations]. unfold s3.
    by rewrite resume_cMsgId.
Qed.

(** ** What a segment does to the registry *)

Lemma requests_app es1 es2 : requests (es1 ++ es2) = requests es1 ++ requests es2.
Proof.
  induction es1 as [|e es1 IH]; [done|].
  destruct e as [[] frame| | | | |]; simpl; by rewrite ?IH.
Qed.

Lemma resolutions_app es1 es2 :
  resolutions (es1 ++ es2) = resolutions es1 ++ resolutions es2.
Proof.
  induction es1 as [|e es1 IH]; [done|]. destruct e; simpl; by rewrite ?IH.
Qed.

Lemma waiting_lines_quiet from n :
  requests (waiting_lines from n) = [] ∧ resolutions (waiting_lines from n) = [] ∧
  sent (waiting_lines from n) = [].
Proof.
  unfold waiting_lines. revert from. induction n as [|n IH]; intros from; [done|].
  simpl. apply IH.
Qed.

(** [publish] either gives up after its sleeps, or sends one request after
    them. *)
Lemma publish_shape k later body s :
  ∃ sleeps,
    publish k later body s = (s, waiting_lines 1 sleeps, Returns (Some soft_error)) ∨
    publish k later body s =
      ((publish_send k body s).1,
       waiting_lines 1 sleeps ++ [ws_send SitePublish (request_frame s body)],
       AwaitsResponse).
Proof.
  unfold publish, canSend.
  pose proof (canSend_loop_first (observe s later) 21 0 eq_refl) as H.
  destruct (canSend_loop 21 (observe s later) 0) as [t ls].
  destruct H as (_ & -> & _). rewrite Nat.sub_0_r. exists t.
  destruct (t <? 20)%nat; [right|by left]. done.
Qed.

(** The three things a segment can do to the registry: leave it alone,
    resolve and remove one entry (the message handler only), or register
    the entry of one new request. *)
Lemma step_shape o s :
  let s' := (step o s).1 in
  let es := (step o s).2 in
  (clientId s' = clientId s ∧ wsUrl s' = wsUrl s ∧ host s' = host s ∧
   apiKey s' = apiKey s ∧ r2Url s' = r2Url s) ∧
  ((cMsgId s' = cMsgId s ∧ waitingOperations s' = waitingOperations s ∧
    requests es = [] ∧ resolutions es = []) ∨
   (∃ msg json entry,
      o = OMessage msg ∧ cMsgId s' = cMsgId s ∧
      waitingOperations s !! ToPropertyKey (Get json "cMsgId") = Some entry ∧
      waitingOperations s' =
        delete (ToPropertyKey (Get json "cMsgId")) (waitingOperations s) ∧
      requests es = [] ∧ resolutions es = [(resolveMe entry, json)]) ∨
   (∃ k body,
      not_a_message o ∧ cMsgId s' = cMsgId s + 1 ∧
      waitingOperations s' =
        <[Number_toString (cMsgId s + 1) :=
            Pending k body (cMsgId s + 1) (clientId s)]> (waitingOperations s) ∧
      requests es = [request_frame s body] ∧ resolutions es = [])).
Proof.
  destruct o as [|r| |msg|frame|k later body|k body|later start h|later];
    cbn [step]; cbn zeta.
  - split; [done|]. by left.
  - split; [by destruct r|]. left. by destruct r.
  - destruct (listener s) as [h|] eqn:Hl.
    + rewrite (init_settled_subscribed s h) by done. split; [done|].
      right; right. eexists AwaitNobody, _. split_and!; try done.
    + rewrite init_settled_unsubscribed by done. split; [done|]. by left.
  - destruct msg as [raw|json]; [split; [done|by left]|].
    destruct json as [| | | | |fields];
      try (split; [done|by left]).
    rewrite on_message_object. cbn zeta.
    destruct (ToBoolean (Get (JObj fields) "pub")).
    { destruct (listener s); (split; [done|by left]). }
    destruct (ToBoolean (Get (JObj fields) "cMsgId")).
    2: { destruct (ToBoolean (Get (JObj fields) "sMsgId")); (split; [done|by left]). }
    destruct (waitingOperations s !! ToPropertyKey (Get (JObj fields) "cMsgId"))
      as [entry|] eqn:Hentry; [|split; [done|by left]].
    cbn [fst snd]. split; [by destruct (resolveMe entry)|].
    right; left. exists (Text (JObj fields)), (JObj fields), entry.
    rewrite resume_waitingOperations, resume_cMsgId. done.
  - split; [done|]. by left.
  - destruct (publish_shape k later body s) as [sleeps [->| ->]]; cbn [fst snd];
      (split; [done|]).
    + left. by destruct (waiting_lines_quiet 1 sleeps) as (-> & -> & _).
    + right; right. exists k, body.
      rewrite requests_app, resolutions_app.
      by destruct (waiting_lines_quiet 1 sleeps) as (-> & -> & _).
  - split; [done|]. right; right. by exists k, body.
  - unfold subscribe.
    destruct (publish_shape AwaitNobody later
                (Some (object [("cmd", Some (JStr "subscribe")); ("startSequence", start)])) s)
      as [sleeps [->| ->]]; cbn [fst snd]; (split; [done|]).
    + left. by destruct (waiting_lines_quiet 1 sleeps) as (-> & -> & _).
    + right; right. eexists AwaitNobody, _.
      rewrite requests_app, resolutions_app.
      by destruct (waiting_lines_quiet 1 sleeps) as (-> & -> & _).
  - unfold unsubscribe.
    destruct (publish_shape AwaitUnsubscribe later
                (Some (object [("cmd", Some (JStr "unsubscribe"))])) s)
      as [sleeps [->| ->]]; cbn [fst snd]; (split; [done|]).
    + left. by destruct (waiting_lines_quiet 1 sleeps) as (-> & -> & _).
    + right; right. eexists AwaitUnsubscribe, _.
      rewrite requests_app, resolutions_app.
      by destruct (waiting_lines_quiet 1 sleeps) as (-> & -> & _).
Qed.

(** A call of [init] is the run of its segments. *)
Lemma init_as_run polls s :
  (init polls s).1 = run (init_segments polls) s.
Proof.
  revert s. induction polls as [|r polls IH]; intros s; [done|].
  cbn [init]. pose proof (init_poll_settling r s) as Hset.
  destruct (init_poll r s) as [[s1 es1] settling] eqn:Hpoll. cbn [snd] in Hset.
  subst settling.
  assert (run (init_segments (r :: polls)) s =
          if bool_decide (r = OPEN)
          then ((init_settled s1).1, es1 ++ (init_settled s1).2)
          else ((run (init_segments polls) s1).1,
                es1 ++ (run (init_segments polls) s1).2)) as ->.
  { destruct r; cbn [init_segments]; rewrite !run_cons; cbn [step run];
      rewrite Hpoll; cbn [fst snd]; rewrite ?app_nil_r; done. }
  case_bool_decide.
  - by destruct (init_settled s1).
  - rewrite <-IH. by destruct (init polls s1) as [[??]?].
Qed.

Lemma init_segments_not_messages polls : Forall not_a_message (init_segments polls).
Proof.
  induction polls as [|r polls IH]; [done|].
  destruct r; cbn [init_segments]; repeat constructor; done.
Qed.

(** X5.  Pending requests are resolved and removed by the message handler
    only.  Along a run without inbound messages (close events, the
    iterations and the completion of [init], acknowledgments, further
    calls) every key that is pending stays pending and no promise is
    settled.  In particular a request that is in flight when the socket
    closes is still pending, unresolved, after [init] has reconnected. *)
Theorem pending_requests_outlive_reconnects s key :
  is_Some (waitingOperations s !! key) →
  (∀ os, Forall not_a_message os →
     is_Some (waitingOperations (run os s).1 !! key) ∧
     resolutions (run os s).2 = []) ∧
  (∀ polls,
     is_Some (waitingOperations (init polls s).1.1 !! key) ∧
     resolutions (init polls s).1.2 = []).
Proof.
  intros Hkey.
  assert (∀ os s, is_Some (waitingOperations s !! key) →
     Forall not_a_message os →
     is_Some (waitingOperations (run os s).1 !! key) ∧
     resolutions (run os s).2 = []) as Hrun.
  { clear s Hkey. intros os. induction os as [|o os IH]; intros s Hkey Hos; [done|].
    apply Forall_cons in Hos as [Ho Hos]. rewrite run_cons. cbn [fst snd].
    rewrite resolutions_app.
    destruct (step_shape o s) as
      (_ & [(_ & Hmap & _ & Hres)|[(msg & ? & ? & -> & _)|(k & body & _ & _ & Hmap & _ & Hres)]]);
      [| done |].
    - rewrite Hres. apply IH; [|done]. by rewrite Hmap.
    - rewrite Hres. apply IH; [|done]. rewrite Hmap.
      apply lookup_insert_is_Some'. by right. }
  split; [intros os; by apply Hrun|].
  intros polls. rewrite init_as_run. apply Hrun; [done|].
  apply init_segments_not_messages.
Qed.

Lemma registry_kept_step seed n o s :
  registry_kept seed n s →
  registry_kept seed (n + length (requests (step o s).2)) (step o s).1.
Proof.
  intros (Hclient & Hcounter & Hentries).
  destruct (step_shape o s) as
    ((Hc & _) & [(Hid & Hmap & -> & _)|
                 [(msg & json & entry & _ & Hid & _ & Hmap & -> & _)|
                  (k & body & _ & Hid & Hmap & -> & _)]]).
  - rewrite Nat.add_0_r. split_and!; [congruence..|]. by rewrite Hmap.
  - rewrite Nat.add_0_r. split_and!; [congruence..|].
    intros key' entry'. rewrite Hmap. intros [_ Hl]%lookup_delete_Some.
    by apply Hentries.
  - cbn [length]. replace (n + 1)%nat with (S n) by lia.
    assert (cMsgId s + 1 = nth_id seed (S n)) as Hnext.
    { rewrite Hcounter. unfold nth_id.
      rewrite Nat2Z.inj_succ, <-Z.add_1_r, Z2Qc_inj_add, Z2Qc_inj_1.
      by rewrite Qcplus_assoc. }
    split_and!; [congruence..|].
    intros key' entry'. rewrite Hmap. intros [[<- <-]|[_ Hl]]%lookup_insert_Some.
    + cbn [p_cMsgId p_clientId]. split_and!; [done..|]. exists (S n). split; [lia|done].
    + destruct (Hentries _ _ Hl) as (? & ? & i & ? & ?).
      split_and!; [done..|]. exists i. split; [lia|done].
Qed.

Lemma registry_kept_run seed n os s :
  registry_kept seed n s →
  registry_kept seed (n + length (requests (run os s).2)) (run os s).1.
Proof.
  revert n s. induction os as [|o os IH]; intros n s Hkept.
  { cbn. by rewrite Nat.add_0_r. }
  rewrite run_cons. cbn [fst snd]. rewrite requests_app, length_app, Nat.add_assoc.
  by apply IH, registry_kept_step.
Qed.

(** X6.  The registry of a session, after any run from its construction
    with [Math.random()] having returned [rand].  The client id is still
    [rand]; and every pending entry is stored under the key of its own id,
    records the client id [rand], and has an id above [rand] and not above
    the counter. *)
Theorem registry_invariant obj rand s0 os :
  constructor obj rand = inl s0 →
  0 ≤ rand → rand < 1 →
  let s := (run os s0).1 in
  clientId s = rand ∧
  ∀ key entry, waitingOperations s !! key = Some entry →
    key = Number_toString (p_cMsgId entry) ∧
    p_clientId entry = rand ∧
    rand < p_cMsgId entry ∧
    p_cMsgId entry ≤ cMsgId s.
Proof.
  intros Hnew _ _. unfold constructor in Hnew. case_decide; [done|].
  injection Hnew as <-. cbn zeta.
  destruct (registry_kept_run rand 0 os (new_session obj rand))
    as (Hclient & Hcounter & Hentries).
  { split_and!; [done|by rewrite nth_id_0|]. intros key entry Hl.
    change (waitingOperations (new_session obj rand))
      with (∅ : gmap string pending) in Hl.
    by rewrite lookup_empty in Hl. }
  split; [done|]. intros key entry Hl.
  destruct (Hentries key entry Hl) as (Hkey & Hc & i & [Hi Hn] & Hid).
  split_and!; [done..| |].
  - rewrite Hid, <-(nth_id_0 rand) at 1. apply nth_id_lt. lia.
  - rewrite Hid, Hcounter.
    destruct (decide (i = 0 + length (requests (run os (new_session obj rand)).2))%nat)
      as [->|Hne]; [apply Qcle_refl|].
    apply Qclt_le_weak, nth_id_lt. lia.
Qed.

Lemma run_requests_client os s :
  clientId (run os s).1 = clientId s ∧
  wsUrl (run os s).1 = wsUrl s ∧ host (run os s).1 = host s ∧
  apiKey (run os s).1 = apiKey s ∧ r2Url (run os s).1 = r2Url s ∧
  Forall (λ frame, Get frame "clientId" = Some (JNum (clientId s)))
    (requests (run os s).2).
Proof.
  revert s. induction os as [|o os IH]; intros s; [done|].
  rewrite run_cons. cbn [fst snd]. rewrite requests_app.
  destruct (IH (step o s).1) as (-> & -> & -> & -> & -> & Hall).
  destruct (step_shape o s) as ((Hc & -> & -> & -> & ->) & Hcases).
  rewrite Hc in Hall. split_and!; [done..|]. apply Forall_app. split; [|done].
  destruct Hcases as [(_ & _ & -> & _)|[(? & ? & ? & _ & _ & _ & _ & -> & _)|
                                        (k & body & _ & _ & _ & -> & _)]];
    [done..|].
  constructor; [|done]. unfold request_frame. by destruct body.
Qed.

(** X7.  A run never changes what the constructor took from its options:
    the host, the two urls, the api key and the client id stay as they
    were, and every request that the session sends carries that client
    id. *)
Theorem configuration_is_kept obj rand s0 os :
  constructor obj rand = inl s0 →
  let s := (run os s0).1 in
  host s = o_host obj ∧ apiKey s = o_apiKey obj ∧
  wsUrl s = wsUrl s0 ∧ r2Url s = r2Url s0 ∧
  clientId s = rand ∧
  Forall (λ frame, Get frame "clientId" = Some (JNum rand)) (requests (run os s0).2).
Proof.
  intros Hnew. unfold constructor in Hnew. case_decide; [done|].
  injection Hnew as <-. cbn zeta.
  destruct (run_requests_client os (new_session obj rand))
    as (-> & -> & -> & -> & -> & Hall).
  done.
Qed.

(** ** The connect loop *)

Lemma opened_app es1 es2 : opened (es1 ++ es2) = opened es1 ++ opened es2.
Proof.
  induction es1 as [|e es1 IH]; [done|]. destruct e; simpl; by rewrite ?IH.
Qed.

Lemma listening_app es1 es2 : listening (es1 ++ es2) = listening es1 ++ listening es2.
Proof.
  induction es1 as [|e es1 IH]; [done|]. destruct e; simpl; by rewrite ?IH.
Qed.

Lemma init_settled_shape s :
  let s' := (init_settled s).1 in
  let es := (init_settled s).2 in
  isConnected s' = true ∧ ws s' = ws s ∧ wsUrl s' = wsUrl s ∧
  opened es = [] ∧ listening es = [ws s].
Proof.
  destruct (listener s) as [h|] eqn:Hl.
  - by rewrite (init_settled_subscribed s h).
  - by rewrite init_settled_unsubscribed.
Qed.

Lemma init_shape polls s :
  let s' := (init polls s).1.1 in
  let es := (init polls s).1.2 in
  let completed := (init polls s).2 in
  completed = bool_decide (OPEN ∈ polls) ∧
  (polls ≠ [] → isConnected s' = completed) ∧
  ws s' = (ws s + attempts polls)%nat ∧
  opened es = replicate (attempts polls) (wsUrl s) ∧
  listening es = (if completed then [ws s'] else []) ∧
  wsUrl s' = wsUrl s.
Proof.
  revert s. induction polls as [|r polls IH]; intros s.
  { cbn. split_and!; try done; lia. }
  cbn [init].
  destruct (decide (r = OPEN)) as [->|Hr].
  - cbn [init_poll attempts]. pose proof (init_settled_shape (set_isConnected false s))
      as (Hc & Hws & Hurl & Hopened & Hlistening).
    destruct (init_settled (set_isConnected false s)) as [s2 es2].
    cbn [fst snd app] in *. rewrite Hc, Hws, Hopened, Hlistening, Hurl.
    split_and!; try done;
      first [by symmetry; apply bool_decide_eq_true; left | cbn; lia].
  - specialize (IH (init_poll r s).1.1).
    assert ((init_poll r s).2 = false) as Hset by (by destruct r).
    assert (isConnected (init_poll r s).1.1 = false) as Hdis by (by destruct r).
    assert (wsUrl (init_poll r s).1.1 = wsUrl s) as Hurl by (by destruct r).
    assert (listening (init_poll r s).1.2 = []) as Hlis by (by destruct r).
    assert (ws (init_poll r s).1.1 + attempts polls = ws s + attempts (r :: polls) ∧
            opened (init_poll r s).1.2 ++ replicate (attempts polls) (wsUrl s) =
              replicate (attempts (r :: polls)) (wsUrl s))%nat as [Hws Hopen].
    { destruct r; try done; cbn; split; (lia || done). }
    destruct (init_poll r s) as [[s1 es1] settling]. cbn [fst snd] in *.
    subst settling.
    assert (isConnected (init polls s1).1.1 = (init polls s1).2) as Hcon.
    { destruct polls as [|r' polls]; [done|]. by apply IH. }
    destruct (init polls s1) as [[s2 es2] completed]. cbn [fst snd] in *.
    rewrite opened_app, listening_app, Hlis.
    destruct IH as (-> & _ & -> & -> & -> & ->).
    rewrite Hurl, Hws, Hopen.
    split_and!; try done.
    apply bool_decide_ext. rewrite elem_of_cons.
    split; [by right|]. by intros [?|?].
Qed.

(** X8.  [init] returns exactly when one of its iterations finds the
    socket open.  Until then the session is marked disconnected, from the
    first iteration on, so that publish-derived calls wait; when it
    returns, the session is marked connected. *)
Theorem init_returns_when_socket_opens polls s :
  polls ≠ [] →
  (init polls s).2 = bool_decide (OPEN ∈ polls) ∧
  isConnected (init polls s).1.1 = bool_decide (OPEN ∈ polls).
Proof.
  intros Hne. destruct (init_shape polls s) as (Hc & Hcon & _).
  split; [done|]. rewrite <-Hc. by apply Hcon.
Qed.

(** X9.  [init] opens a new socket for every iteration that finds the
    current one closed or closing, always to the url of the session, and
    for no other; and when it returns it installs the listeners once, on
    the socket that is current then. *)
Theorem init_opens_a_socket_per_closed_poll polls s :
  ws (init polls s).1.1 = (ws s + attempts polls)%nat ∧
  opened (init polls s).1.2 = replicate (attempts polls) (wsUrl s) ∧
  listening (init polls s).1.2 =
    (if bool_decide (OPEN ∈ polls) then [(ws s + attempts polls)%nat] else []).
Proof.
  destruct (init_shape polls s) as (Hc & _ & Hws & Hopened & Hlistening & _).
  by rewrite Hlistening, Hc, Hws.
Qed.

(** X10.  [init] never removes listeners.  When a second call of [init]
    finds the socket of the first still connecting or open, it installs
    the listeners a second time on that same socket. *)
Theorem second_init_installs_listeners_again polls1 polls2 s :
  OPEN ∈ polls1 → OPEN ∈ polls2 → attempts polls2 = 0%nat →
  let first := init polls1 s in
  let second := init polls2 first.1.1 in
  ws second.1.1 = ws first.1.1 ∧
  listening (first.1.2 ++ second.1.2) = [ws first.1.1; ws first.1.1].
Proof.
  intros H1 H2 Hnone first second.
  destruct (init_shape polls1 s) as (Hc1 & _ & _ & _ & Hl1 & _).
  destruct (init_shape polls2 first.1.1) as (Hc2 & _ & Hws2 & _ & Hl2 & _).
  fold first in Hc1, Hl1. fold second in Hc2, Hws2, Hl2.
  rewrite Hnone, Nat.add_0_r in Hws2.
  rewrite listening_app, Hl1, Hl2, Hc1, Hc2, Hws2.
  by rewrite !bool_decide_true.
Qed.

(** ** Deliveries *)

Lemma assoc_remove_key (key key' : string) l :
  assoc key (remove_key key' l) = if decide (key = key') then None else assoc key l.
Proof.
  induction l as [|[key0 v] l IH]; simpl; [by case_decide|].
  destruct (decide (key' = key0)) as [->|Hne]; simpl; rewrite IH;
    repeat case_decide; congruence.
Qed.

(** X11.  What the consumer gets of a delivery.  The handler is called
    once, with the frame as the server sent it but for the [pub] tag: every
    other field is as it came.  The acknowledgment closure that comes with
    it reads the message object when it is called: in whatever state of
    the session that is, it sets the cursor to the [sequence] that the
    object holds then and sends the object as it is then, and nothing
    else.  When the handler has not written to the object, that is the
    [sequence] of the frame and the frame without its tag. *)
Theorem delivery_reaches_handler_untagged json s h :
  listener s = Some h →
  ToBoolean (Get json "pub") = true →
  ∃ frame acknowledge,
    on_message (Text json) s = (s, [doHandle h frame acknowledge], Done) ∧
    Get frame "pub" = None ∧
    (∀ key, key ≠ "pub" → Get frame key = Get json key) ∧
    (∀ current s2,
       acknowledge current s2 =
         (set_lastSequence (Get current "sequence") s2, [ws_send SiteAck current])) ∧
    (∀ s2, acknowledge frame s2 =
             (set_lastSequence (Get json "sequence") s2, [ws_send SiteAck frame])).
Proof.
  intros Hl Hpub. destruct (truthy_field_object _ _ Hpub) as [fields ->].
  exists (Delete (JObj fields) "pub"), ack.
  rewrite on_message_object. cbn zeta. rewrite Hpub, Hl.
  split_and!; [done| | |done|].
  - cbn. by rewrite assoc_remove_key, decide_True.
  - intros key Hkey. cbn. by rewrite assoc_remove_key, decide_False.
  - intros s2. unfold ack. cbn [Delete Get].
    by rewrite assoc_remove_key, decide_False.
Qed.

(** X13.  A session holds one subscription.  A second [subscribe] puts its
    handler and its start sequence in the place of the first; it sends no
    unsubscribe request for the first, only subscribe requests; and a
    delivery that arrives then reaches the second handler alone. *)
Theorem second_subscribe_replaces_first later1 start1 h1 later2 start2 h2 s json :
  let first := subscribe later1 start1 h1 s in
  let second := subscribe later2 start2 (Some h2) first.1.1 in
  ToBoolean (Get json "pub") = true →
  listener second.1.1 = Some h2 ∧
  lastSequence second.1.1 = start2 ∧
  Forall (λ frame, command_of frame = Some (JStr "subscribe"))
    (sent (first.1.2 ++ second.1.2)) ∧
  handled (on_message (Text json) second.1.1).1.2 = [(h2, Delete json "pub")].
Proof.
  intros first second Hpub.
  assert (∀ later start h s,
    listener (subscribe later start h s).1.1 = h ∧
    lastSequence (subscribe later start h s).1.1 = start ∧
    Forall (λ frame, command_of frame = Some (JStr "subscribe"))
      (sent (subscribe later start h s).1.2)) as Hsub.
  { clear. intros later start h s. unfold subscribe.
    destruct (publish_shape AwaitNobody later
                (Some (object [("cmd", Some (JStr "subscribe")); ("startSequence", start)])) s)
      as [sleeps [->| ->]]; cbn [fst snd]; (split_and!; [done..|]).
    - by destruct (waiting_lines_quiet 1 sleeps) as (_ & _ & ->).
    - rewrite sent_app. destruct (waiting_lines_quiet 1 sleeps) as (_ & _ & ->).
      repeat constructor. by destruct start. }
  destruct (Hsub later1 start1 h1 s) as (_ & _ & Hsent1).
  destruct (Hsub later2 start2 (Some h2) first.1.1) as (Hl & Hseq & Hsent2).
  fold first in Hsent1. fold second in Hl, Hseq, Hsent2.
  split_and!; [done..| |].
  - rewrite sent_app. by apply Forall_app.
  - destruct (truthy_field_object _ _ Hpub) as [fields ->].
    rewrite on_message_object. cbn zeta. by rewrite Hpub, Hl.
Qed.

(** ** Correlation by property key *)

(** X12.  Responses are matched by property key, not by number.  A frame
    whose [cMsgId] is the string that spells the id of a pending request,
    or the array holding just that id, resolves the request as the number
    itself would. *)
Theorem response_id_is_a_property_key json s entry id :
  ToBoolean (Get json "pub") = false →
  waitingOperations s !! Number_toString id = Some entry →
  Number_toString id ≠ EmptyString →
  Get json "cMsgId" = Some (JStr (Number_toString id)) ∨
  Get json "cMsgId" = Some (JArr [JNum id]) →
  on_message (Text json) s =
    (resume (resolveMe entry)
       (set_waitingOperations (delete (Number_toString id) (waitingOperations s)) s),
     [resolved (resolveMe entry) json], Done).
Proof.
  intros Hpub Hentry Hprint Hid.
  assert (ToBoolean (Get json "cMsgId") = true ∧
          ToPropertyKey (Get json "cMsgId") = Number_toString id) as [Htrue Hkey].
  { destruct Hid as [-> | ->]; (split; [|done]); [|done].
    by apply bool_decide_eq_true. }
  rewrite (on_message_response (Text json) json s entry); rewrite ?Hkey; done.
Qed.

Lemma nth_id_pos seed i : 0 ≤ seed → (1 ≤ i)%nat → 0 < nth_id seed i.
Proof.
  intros Hseed Hi. unfold nth_id. apply Qcplus_nonneg_pos; [done|].
  rewrite <-Z2Qc_inj_0. apply (proj1 (Z2Qc_inj_lt _ _)). lia.
Qed.

(** X14.  Every pending request of a session is answered by the frame that
    echoes its id.  In a session constructed with a [Math.random()] that is
    not negative, after any run, a frame without a [pub] tag whose [cMsgId]
    is the id recorded in a pending entry is routed to the registry (every
    id issued is truthy), finds that entry, resolves it with the frame and
    removes it. *)
Theorem own_responses_are_routed obj rand s0 os key entry json :
  constructor obj rand = inl s0 →
  0 ≤ rand →
  let s := (run os s0).1 in
  waitingOperations s !! key = Some entry →
  ToBoolean (Get json "pub") = false →
  Get json "cMsgId" = Some (JNum (p_cMsgId entry)) →
  on_message (Text json) s =
    (resume (resolveMe entry)
       (set_waitingOperations (delete key (waitingOperations s)) s),
     [resolved (resolveMe entry) json], Done).
Proof.
  intros Hnew Hrand s Hentry Hpub Hid.
  destruct (registry_kept_run rand 0 os s0) as (_ & _ & Hentries).
  { unfold constructor in Hnew. case_decide; [done|]. injection Hnew as <-.
    split_and!; [done|by rewrite nth_id_0|]. intros key' entry' Hl.
    change (waitingOperations (new_session obj rand)) with (∅ : gmap string pending) in Hl.
    by rewrite lookup_empty in Hl. }
  destruct (Hentries key entry Hentry) as (-> & _ & i & Hi & Hnth).
  assert (ToBoolean (Get json "cMsgId") = true) as Htrue.
  { rewrite Hid, Hnth. apply bool_decide_eq_true. intros Hzero.
    assert (0 < nth_id rand i) as Hpos by (apply nth_id_pos; [done|lia]).
    rewrite Hzero in Hpos. by apply Qclt_not_eq in Hpos. }
  rewrite (on_message_response (Text json) json s entry);
    [by rewrite Hid|done..|by rewrite Hid].
Qed.

(** ** The R2 calls *)

Lemma append_assoc (a b c : string) : (a +:+ b) +:+ c = a +:+ b +:+ c.
Proof.
  induction a as [|x a IH]; [reflexivity|].
  change (String x ((a +:+ b) +:+ c) = String x (a +:+ b +:+ c)). by rewrite IH.
Qed.

Lemma object_url_new_session obj rand (key : string) :
  object_url (new_session obj rand) key = r2_url obj key.
Proof.
  unfold object_url, r2_url. cbn [r2Url apiKey new_session].
  by rewrite !append_assoc.
Qed.

(** X15.  At any time in the life of a session, the four R2 calls go to
    the url [scheme://host/r2/key?apiKey=K] of the options that the
    constructor took, [https] exactly when [secure] is set and with a key
    [K] that is not empty; [headObject] without an argument asks for the
    empty key.  [getObject] asks for an array buffer, [putObject] posts the
    file without a size limit.  Each call returns the data of the response
    or, as a value, the error that it caught. *)
Theorem r2_calls_use_the_object_url obj rand s0 os axios (key file : string) :
  constructor obj rand = inl s0 →
  let s := (run os s0).1 in
  o_apiKey obj ≠ EmptyString ∧
  headObject axios (Some key) s =
    returned_or_caught (axios (HttpRequest HEAD (r2_url obj key) None None false)) ∧
  headObject axios None s =
    returned_or_caught
      (axios (HttpRequest HEAD (r2_url obj EmptyString) None None false)) ∧
  getObject axios key s =
    returned_or_caught
      (axios (HttpRequest GET (r2_url obj key) None (Some "arraybuffer") false)) ∧
  putObject axios key file s =
    returned_or_caught
      (axios (HttpRequest POST (r2_url obj key) (Some file) None true)) ∧
  deleteObject axios key s =
    returned_or_caught
      (axios (HttpRequest DELETE (r2_url obj key) None None false)).
Proof.
  intros Hnew s. unfold constructor in Hnew. case_decide as Hkey; [done|].
  injection Hnew as <-.
  assert (∀ key, object_url s key = r2_url obj key) as Hurl.
  { intros key'. rewrite <-object_url_new_session with (rand := rand).
    unfold object_url, s.
    by destruct (run_requests_client os (new_session obj rand))
      as (_ & _ & _ & -> & -> & _). }
  unfold headObject, getObject, putObject, deleteObject. cbn [default].
  by rewrite !Hurl.
Qed.

(** ** Tags that are present and falsy *)

(** X16.  The router tests the tags for truthiness, not for presence.  A
    frame whose [pub] field is [null], [false], [0] or the empty string is
    no delivery: the handler is not called and the tag is not removed; the
    frame goes on to the tests of [cMsgId] and [sMsgId], and a server
    request among such frames is echoed with its [pub] field still in
    it. *)
Theorem falsy_pub_is_not_a_delivery json s v :
  Get json "pub" = Some v →
  v = JNull ∨ v = JBool false ∨ v = JNum 0 ∨ v = JStr EmptyString →
  handled (on_message (Text json) s).1.2 = [] ∧
  (ToBoolean (Get json "cMsgId") = false →
   ToBoolean (Get json "sMsgId") = true →
   on_message (Text json) s = (s, [ws_send SiteEcho json], Done) ∧
   Get json "pub" = Some v).
Proof.
  intros Hget Hv.
  assert (ToBoolean (Get json "pub") = false) as Hpub.
  { rewrite Hget. by destruct Hv as [Hv|[Hv|[Hv|Hv]]]; rewrite Hv. }
  destruct json as [| | | | |fields]; try done.
  rewrite on_message_object. cbn zeta. rewrite Hpub. split.
  - repeat case_match; done.
  - by intros -> ->.
Qed.

(** ** A socket failure

    [setupListeners] binds the one [closeHandler] to the "close" event and
    to the "error" event of the socket.  A socket that fails fires both,
    "error" first, and each runs [init]: the first loop finds the socket
    closed and opens a new one, the second finds that new socket
    connecting, and both go on to poll it, settle and count. *)

Lemma run_step o os s s1 es1 s2 es2 :
  step o s = (s1, es1) → run os s1 = (s2, es2) →
  run (o :: os) s = (s2, es1 ++ es2).
Proof. intros H1 H2. cbn [run]. by rewrite H1, H2. Qed.

Lemma step_OInitSettled s :
  step OInitSettled s = ((init_settled s).1, (init_settled s).2).
Proof. cbn [step]. by destruct (init_settled s). Qed.

Lemma settled_twice s :
  ∃ s1 es1 s2 es2,
    run [OInitSettled; OInitSettled] s = (s2, es1 ++ es2 ++ []) ∧
    init_settled s = (s1, es1) ∧ init_settled s1 = (s2, es2) ∧
    reconnects s2 = (reconnects s + 2)%Z ∧
    ws s2 = ws s ∧
    opened es1 = [] ∧ opened es2 = [] ∧
    listening es1 = [ws s] ∧ listening es2 = [ws s] ∧
    console_log (LogConnected (wsUrl s) (reconnects s + 2)) ∈ es2.
Proof.
  pose proof (init_settled_shape s) as (_ & Hw1 & Hu1 & Ho1 & Hl1).
  pose proof (init_settled_fields s) as (Hr1 & _).
  pose proof (step_OInitSettled s) as Hstep1.
  destruct (init_settled s) as [s1 es1]. cbn [fst snd] in *.
  pose proof (init_settled_shape s1) as (_ & Hw2 & Hu2 & Ho2 & Hl2).
  pose proof (init_settled_fields s1) as (Hr2 & _ & _ & _ & Hlog).
  pose proof (step_OInitSettled s1) as Hstep2.
  destruct (init_settled s1) as [s2 es2]. cbn [fst snd] in *.
  exists s1, es1, s2, es2. split_and!; try done.
  - eapply run_step; [exact Hstep1|]. by eapply run_step; [exact Hstep2|].
  - lia.
  - congruence.
  - by rewrite Hl2, Hw1.
  - replace (reconnects s + 2)%Z with (reconnects s1 + 1)%Z by lia.
    rewrite <-Hu1. by eapply list_elem_of_lookup_2.
Qed.

(** C6, the failing run.  From any session, the segments that one failed
    socket starts open one new socket and complete [init] twice on it: the
    counter goes up by two, the second completion logs that value, and the
    listeners are installed twice on the new socket. *)
Theorem one_failure_counts_twice s :
  let failure :=
    [OClose; OInitPoll CLOSED; OClose; OInitPoll CONNECTING;
     OInitPoll OPEN; OInitPoll OPEN; OInitSettled; OInitSettled] in
  reconnects (run failure s).1 = (reconnects s + 2)%Z ∧
  opened (run failure s).2 = [wsUrl s] ∧
  ws (run failure s).1 = S (ws s) ∧
  listening (run failure s).2 = [S (ws s); S (ws s)] ∧
  console_log (LogConnected (wsUrl s) (reconnects s + 2)) ∈ (run failure s).2.
Proof.
  intros failure.
  pose (s1 := set_isConnected false s).
  pose (s2 := set_isConnected false
                (set_isConnected false
                   (set_isConnected false (set_ws (S (ws s1)) s1)))).
  destruct (settled_twice s2)
    as (s3 & es3 & s4 & es4 & Hrun & _ & _ & Hr & Hw & Ho3 & Ho4 & Hl3 & Hl4 & Hlog).
  assert (run failure s =
            (s4, [console_log LogSessionClosed] ++
                 [console_log (LogAttempting (host s1)); new_WebSocket (wsUrl s1)] ++
                 [console_log LogSessionClosed] ++ [] ++ [] ++ [] ++
                 es3 ++ es4 ++ [])) as ->.
  { subst failure.
    eapply run_step; [reflexivity|].
    eapply run_step; [reflexivity|].
    eapply run_step; [reflexivity|].
    eapply run_step; [reflexivity|].
    eapply run_step; [reflexivity|].
    eapply run_step; [reflexivity|].
    exact Hrun. }
  change (reconnects s2) with (reconnects s) in Hr, Hlog.
  change (wsUrl s2) with (wsUrl s) in Hlog.
  change (ws s2) with (S (ws s)) in Hw, Hl3, Hl4.
  change (wsUrl s1) with (wsUrl s).
  clearbody s2 s1.
  cbn [fst snd].
  rewrite !opened_app, !listening_app, Ho3, Ho4, Hl3, Hl4.
  split_and!; [done..|].
  rewrite !elem_of_app. do 7 right. by left.
Qed.

End Facts.

(** * The theorems at work, and where the code parts from the specification

    The examples are evaluated with [ratio_platform]. *)

#[local] Existing Instance ratio_platform.

(** ** The message handler *)

(** A delivery reaching the session just constructed, which has no
    handler. *)
Lemma delivery_without_listener_witness :
  JSON_parse (Text (delivery 1)) = Some (delivery 1) ∧
  ToBoolean (Get (delivery 1) "pub") = true ∧
  constructor local_options half = inl fresh ∧
  on_message (Text (delivery 1)) fresh = (fresh, [], Threw TypeError).
Proof.
  split_and!; [reflexivity..|].
  destruct (delivery_without_listener_throws (Text (delivery 1)) (delivery 1) fresh
              eq_refl eq_refl) as (_ & Hnew & _).
  exact (Hnew local_options half fresh eq_refl).
Defined.

(** C3 as stated fails: a payload that is not JSON is neither logged nor
    dropped quietly; the step ends with the [SyntaxError] and logs
    nothing. *)
Lemma malformed_payload_not_logged_and_dropped :
  on_message (Malformed "{oops") established =
    (established, [], Threw SyntaxError) ∧
  (on_message (Malformed "{oops") established).2 ≠ Done ∧
  ∀ l, console_log l ∉ (on_message (Malformed "{oops") established).1.2.
Proof.
  split_and!; [reflexivity|discriminate|].
  intros l Hl. simpl in Hl. by apply elem_of_nil in Hl.
Qed.

(** A delivery that finds no handler: the step throws and has done
    nothing. *)
Lemma malformed_payload_rejects_witness :
  (on_message (Text (delivery 1)) established).2 = Threw TypeError ∧
  on_message (Text (delivery 1)) established = (established, [], Threw TypeError).
Proof.
  split; [reflexivity|].
  destruct (malformed_payload_rejects "{oops" established) as (_ & _ & H).
  exact (H (Text (delivery 1)) TypeError eq_refl).
Defined.

(** The response to the request in flight resolves its entry and empties
    the map; the same frame finds no entry in a session that has sent
    nothing. *)
Lemma response_resolves_registered_entry_witness :
  JSON_parse (Text response) = Some response ∧
  ToBoolean (Get response "pub") = false ∧
  ToBoolean (Get response "cMsgId") = true ∧
  on_message (Text response) awaiting =
    (set_cMsgId (Q2Qc (3 # 2)) established,
     [resolved AwaitCaller response], Done) ∧
  on_message (Text response) established = (established, [], Threw TypeError).
Proof.
  split_and!; [reflexivity..| |].
  - pose proof (response_resolves_registered_entry (Text response) response awaiting
                  eq_refl eq_refl eq_refl) as H.
    cbv zeta in H.
    assert (waitingOperations awaiting !! ToPropertyKey (Get response "cMsgId")
            = Some (Pending AwaitCaller (Some (JStr "hello")) (Q2Qc (3 # 2)) half))
      as Hentry by reflexivity.
    rewrite Hentry in H. destruct H as (s' & -> & -> & _). reflexivity.
  - exact (response_resolves_registered_entry (Text response) response established
             eq_refl eq_refl eq_refl).
Defined.

(** C2 as stated fails: a response under an id that is not registered is
    not dropped silently; the step ends with a [TypeError]. *)
Lemma unmatched_response_not_dropped :
  waitingOperations established !! ToPropertyKey (Get response "cMsgId") = None ∧
  on_message (Text response) established = (established, [], Threw TypeError) ∧
  on_message (Text response) established ≠ (established, [], Done).
Proof. split_and!; [reflexivity..|discriminate]. Qed.

(** The four branches of the router, and the acknowledgment of the
    delivered frame. *)
Lemma router_priority_witness :
  on_message (Text (delivery 1)) subscribed =
    (subscribed, [doHandle 7%nat (delivered 1) ack], Done) ∧
  ack (delivered 1) subscribed =
    (set_lastSequence (Some (JNum (Qc_of_Z 1))) subscribed,
     [ws_send SiteAck (delivered 1)]) ∧
  on_message (Text response) awaiting =
    (set_cMsgId (Q2Qc (3 # 2)) established,
     [resolved AwaitCaller response], Done) ∧
  on_message (Text server_request) established =
    (established, [ws_send SiteEcho server_request], Done) ∧
  on_message (Text stray) established = (established, [], Done).
Proof.
  split_and!.
  - destruct (router_priority (delivery 1) subscribed) as (_ & _ & H & _).
    destruct (H eq_refl) as (Hcall & _). exact (Hcall 7%nat eq_refl).
  - destruct (router_priority (delivery 1) subscribed) as (Hack & _).
    rewrite Hack. reflexivity.
  - destruct (router_priority response awaiting) as (_ & _ & _ & H & _).
    destruct (H eq_refl eq_refl) as (Hresolve & _).
    assert (waitingOperations awaiting !! ToPropertyKey (Get response "cMsgId")
            = Some (Pending AwaitCaller (Some (JStr "hello")) (Q2Qc (3 # 2)) half))
      as Hentry by reflexivity.
    rewrite (Hresolve _ Hentry). reflexivity.
  - destruct (router_priority server_request established) as (_ & _ & _ & _ & H & _).
    exact (H eq_refl eq_refl eq_refl).
  - assert (stray ≠ JNull) as Hnull by discriminate.
    destruct (router_priority stray established) as (_ & _ & _ & _ & _ & H).
    exact (H Hnull eq_refl eq_refl eq_refl).
Defined.

(** C5 as stated fails.  A frame that carries [pub: false] is not handed
    to the handler but echoed as a server request; a delivery that finds
    no handler, and a response that finds no entry, are not routed but end
    the step with a [TypeError]; and [null], which has none of the three
    tags, is not ignored but ends the step with a [TypeError] too. *)
Lemma router_claim_fails :
  let tagged := JObj [("pub", JBool false); ("sMsgId", JNum 1)] in
  Get tagged "pub" = Some (JBool false) ∧
  on_message (Text tagged) subscribed =
    (subscribed, [ws_send SiteEcho tagged], Done) ∧
  listener established = None ∧
  on_message (Text (delivery 1)) established = (established, [], Threw TypeError) ∧
  on_message (Text response) established = (established, [], Threw TypeError) ∧
  on_message (Text JNull) established = (established, [], Threw TypeError) ∧
  on_message (Text JNull) established ≠ (established, [], Done).
Proof. split_and!; [reflexivity..|discriminate]. Qed.

(** ** Calls made while disconnected *)

(** The session just constructed is disconnected; nothing connects it. *)
Lemma disconnected_calls_witness :
  isConnected fresh = false ∧
  (∀ i, (1 ≤ i ≤ 20)%nat → never i = false) ∧
  publish AwaitCaller never (Some (JStr "hello")) fresh =
    (fresh, waiting_lines 1 21, Returns (Some soft_error)) ∧
  unsubscribe never fresh =
    (set_listener None fresh, waiting_lines 1 21, Returns undefined).
Proof.
  assert (∀ i, (1 ≤ i ≤ 20)%nat → never i = false) as Hnever by reflexivity.
  destruct (disconnected_calls_send_nothing never fresh eq_refl Hnever)
    as (_ & Hpublish & _ & _ & _ & _ & _ & Hunsubscribe).
  split_and!; [reflexivity|exact Hnever|apply Hpublish|exact Hunsubscribe].
Defined.

(** C4 as stated fails for [subscribe]: in the disconnected session it
    returns [undefined], not the soft error value, and so does
    [deleteMessages]. *)
Lemma subscribe_discards_soft_error :
  isConnected fresh = false ∧
  (subscribe never (Some (JNum 0)) (Some 7%nat) fresh).2 = Returns undefined ∧
  (deleteMessages never (Some (JNum 1)) fresh).2 = Returns undefined ∧
  Returns undefined ≠ Returns (Some soft_error).
Proof. split_and!; [reflexivity..|discriminate]. Qed.

(** ** unsubscribe *)

(** [unsubscribe] on the subscribed, connected session, and the response to
    its request. *)
Lemma unsubscribe_keeps_cursor_witness :
  let s' := (unsubscribe never subscribed).1.1 in
  let answer := JObj [("cMsgId", JNum (Q2Qc (5 # 2)))] in
  (unsubscribe never subscribed).2 = AwaitsResponse ∧
  lastSequence s' = Some (JNum 0) ∧
  listener s' = Some 7%nat ∧
  listener (on_message (Text answer) s').1.1 = None ∧
  lastSequence (on_message (Text answer) s').1.1 = Some (JNum 0).
Proof.
  assert (∀ msg json s2 entry,
    JSON_parse msg = Some json →
    ToBoolean (Get json "pub") = false →
    ToBoolean (Get json "cMsgId") = true →
    waitingOperations s2 !! ToPropertyKey (Get json "cMsgId") = Some entry →
    resolveMe entry = AwaitUnsubscribe →
    listener (on_message msg s2).1.1 = None ∧
    lastSequence (on_message msg s2).1.1 = lastSequence s2) as Hanswer.
  { pose proof (unsubscribe_keeps_cursor never subscribed) as H.
    cbv zeta in H. destruct (unsubscribe never subscribed) as [[s1 es1] r1].
    destruct H as (_ & _ & _ & _ & _ & H). exact H. }
  intros s' answer.
  pose (entry :=
    Pending AwaitUnsubscribe (Some (object [("cmd", Some (JStr "unsubscribe"))]))
      (Q2Qc (5 # 2)) half).
  destruct (Hanswer (Text answer) answer s' entry eq_refl eq_refl eq_refl eq_refl eq_refl)
    as [Hlistener Hcursor].
  split_and!; [reflexivity..|exact Hlistener|].
  rewrite Hcursor. reflexivity.
Defined.

(** C9 as stated fails in a disconnected session.  The socket of the
    subscribed session has closed and [init] is polling: [unsubscribe]
    sends no request, and clears the handler. *)
Lemma unsubscribe_disconnected_sends_nothing :
  let polling := (run [OClose; OInitPoll CLOSED] subscribed).1 in
  isConnected polling = false ∧
  listener polling = Some 7%nat ∧
  sent (unsubscribe never polling).1.2 = [] ∧
  listener (unsubscribe never polling).1.1 = None.
Proof. split_and!; vm_compute; reflexivity. Qed.

(** ** The reconnect counter *)

(** The first connect, and a reconnect after the server has closed the
    socket, which fires "close" alone. *)
Lemma reconnect_counter_witness :
  constructor local_options half = inl fresh ∧
  reconnects fresh = (-1)%Z ∧
  reconnects (run [OInitPoll CLOSED; OInitPoll OPEN; OInitSettled] fresh).1 = 0%Z ∧
  reconnects
    (run [OInitPoll CLOSED; OInitPoll OPEN; OInitSettled;
          OClose; OInitPoll CLOSED; OInitPoll CONNECTING; OInitPoll OPEN;
          OInitSettled] fresh).1 = 1%Z.
Proof.
  destruct (reconnect_counter local_options half fresh eq_refl)
    as (Hnew & Hrun & _).
  split_and!; [reflexivity|exact Hnew|..]; by rewrite Hrun.
Defined.

(** The first connect has reported 0.  Then the socket fails: "error" and
    "close" fire, one socket is opened, and the counter is 2. *)
Lemma one_failure_counts_twice_witness :
  reconnects established = 0%Z ∧
  reconnects
    (run [OClose; OInitPoll CLOSED; OClose; OInitPoll CONNECTING;
          OInitPoll OPEN; OInitPoll OPEN; OInitSettled; OInitSettled]
       established).1 = 2%Z ∧
  opened
    (run [OClose; OInitPoll CLOSED; OClose; OInitPoll CONNECTING;
          OInitPoll OPEN; OInitPoll OPEN; OInitSettled; OInitSettled]
       established).2 = [wsUrl established].
Proof.
  destruct (one_failure_counts_twice established) as (Hr & Ho & _).
  cbv zeta in Hr, Ho.
  split_and!; [reflexivity| |exact Ho].
  rewrite Hr. reflexivity.
Defined.

(** ** Resuming the subscription *)

(** The consumer acknowledges frame 5, the socket closes, and [init]
    reconnects: the subscription resumes at 5 with handler 7.  When frame 6
    is acknowledged after frame 5, in order, the subscription resumes at 5
    or above. *)
Lemma resubscribe_after_reconnect_witness :
  let later := (run [OAck (delivered 6)] (ack (delivered 5) subscribed).1).1 in
  listener subscribed = Some 7%nat ∧
  listener later = Some 7%nat ∧
  OPEN ∈ [CLOSED; CONNECTING; OPEN] ∧
  in_order [OAck (delivered 6)] (ack (delivered 5) subscribed).1 ∧
  (∃ s' es request,
    init [CLOSED; CONNECTING; OPEN] (ack (delivered 5) subscribed).1 = (s', es, true) ∧
    sent es = [request] ∧
    start_of request = Some (JNum (Qc_of_Z 5)) ∧
    listener s' = Some 7%nat) ∧
  cursor_le (Get (delivered 5) "sequence") (start_of (subscribe_request later)).
Proof.
  intros later.
  assert (OPEN ∈ [CLOSED; CONNECTING; OPEN]) as Hopen by (by repeat constructor).
  assert (in_order [OAck (delivered 6)] (ack (delivered 5) subscribed).1) as Hord.
  { repeat split; vm_compute; discriminate. }
  assert (listener later = Some 7%nat) as Hlater by reflexivity.
  split_and!; [reflexivity|exact Hlater|exact Hopen|exact Hord| |].
  - destruct (resubscribe_after_reconnect [CLOSED; CONNECTING; OPEN] subscribed 7%nat
                eq_refl Hopen) as (_ & Hack & _).
    exact (Hack (delivered 5)).
  - destruct (resubscribe_after_reconnect [CLOSED; CONNECTING; OPEN] later 7%nat
                Hlater Hopen) as (_ & _ & _ & _ & Hge).
    exact (Hge subscribed (delivered 5) [OAck (delivered 6)] eq_refl Hord).
Defined.

(** C7 as stated fails.  The consumer acknowledges frame 5, then the
    redelivered frame 3, and the socket closes: [init] resumes the
    subscription at 3, below the acknowledged 5. *)
Lemma resume_below_acknowledged :
  let acked :=
    (run [OMessage (Text (delivery 5)); OAck (delivered 5);
          OMessage (Text (delivery 3)); OAck (delivered 3)] subscribed).1 in
  let resumed := init [CLOSED; CONNECTING; OPEN] acked in
  listener acked = Some 7%nat ∧
  resumed.2 = true ∧
  start_of <$> sent resumed.1.2 = [Some (JNum (Qc_of_Z 3))] ∧
  listener resumed.1.1 = Some 7%nat ∧
  ¬ cursor_le (Some (JNum (Qc_of_Z 5))) (Some (JNum (Qc_of_Z 3))).
Proof.
  split_and!; [vm_compute; reflexivity..|].
  intros H. vm_compute in H. by apply H.
Qed.

(** ** The cursor *)

(** Frames 1 and 2 acknowledged in order. *)
Lemma cursor_follows_ack_witness :
  in_order [OAck (delivered 1); OAck (delivered 2)] subscribed ∧
  cursor_le (lastSequence subscribed)
    (lastSequence (run [OAck (delivered 1); OAck (delivered 2)] subscribed).1).
Proof.
  assert (in_order [OAck (delivered 1); OAck (delivered 2)] subscribed) as Hord.
  { repeat split; vm_compute; discriminate. }
  split; [exact Hord|].
  destruct cursor_follows_ack_and_subscribe as (_ & _ & _ & _ & Hrun).
  exact (Hrun _ _ Hord).
Defined.

(** C1 as stated fails.  The consumer acknowledges frame 5, then the
    redelivered frame 3: the cursor goes from 5 back to 3.  A second
    [subscribe] with start sequence 0 takes it from 5 back to 0. *)
Lemma cursor_moves_backward :
  let acked5 :=
    (run [OMessage (Text (delivery 5)); OAck (delivered 5)] subscribed).1 in
  let acked3 :=
    (run [OMessage (Text (delivery 3)); OAck (delivered 3)] acked5).1 in
  let resubscribed := (subscribe never (Some (JNum 0)) (Some 7%nat) acked5).1.1 in
  lastSequence acked5 = Some (JNum (Qc_of_Z 5)) ∧
  lastSequence acked3 = Some (JNum (Qc_of_Z 3)) ∧
  lastSequence resubscribed = Some (JNum 0) ∧
  ¬ cursor_le (lastSequence acked5) (lastSequence acked3) ∧
  ¬ cursor_le (lastSequence acked5) (lastSequence resubscribed).
Proof.
  split_and!; [reflexivity..| |]; intros H; vm_compute in H; by apply H.
Qed.

(** ** Request ids *)

(** Three requests of one session: a publish, a subscribe, and the
    resubscription of a reconnect. *)
Lemma request_ids_witness :
  constructor local_options half = inl fresh ∧
  0 ≤ half ∧ half < 1 ∧
  (Z.of_nat
     (length
        (request_ids
           (run [OInitPoll OPEN; OInitSettled;
                 OPublish AwaitCaller never (Some (JStr "hello"));
                 OSubscribe never (Some (JNum 0)) (Some 7%nat);
                 OClose; OInitPoll CLOSED; OInitPoll OPEN; OInitSettled]
              fresh).2)) < 2 ^ 53)%Z ∧
  StronglySorted Qclt
    (request_ids
       (run [OInitPoll OPEN; OInitSettled;
             OPublish AwaitCaller never (Some (JStr "hello"));
             OSubscribe never (Some (JNum 0)) (Some 7%nat);
             OClose; OInitPoll CLOSED; OInitPoll OPEN; OInitSettled]
          fresh).2) ∧
  NoDup
    (request_ids
       (run [OInitPoll OPEN; OInitSettled;
             OPublish AwaitCaller never (Some (JStr "hello"));
             OSubscribe never (Some (JNum 0)) (Some 7%nat);
             OClose; OInitPoll CLOSED; OInitPoll OPEN; OInitSettled]
          fresh).2).
Proof.
  assert (0 ≤ half) as H0 by discriminate.
  assert (half < 1) as H1 by reflexivity.
  assert (Z.of_nat
     (length
        (request_ids
           (run [OInitPoll OPEN; OInitSettled;
                 OPublish AwaitCaller never (Some (JStr "hello"));
                 OSubscribe never (Some (JNum 0)) (Some 7%nat);
                 OClose; OInitPoll CLOSED; OInitPoll OPEN; OInitSettled]
              fresh).2)) < 2 ^ 53)%Z as Hfew
    by (vm_compute; reflexivity).
  split_and!; [reflexivity|exact H0|exact H1|exact Hfew|..];
    apply (request_ids_strictly_increasing local_options half fresh _
             eq_refl H0 H1 Hfew).
Defined.

(** C8 as stated fails: with [Math.random()] returning one half, the first
    request of the session carries the id 3/2, which is not an integer. *)
Lemma request_id_not_integer :
  request_ids
    (run [OInitPoll OPEN; OInitSettled;
          OPublish AwaitCaller never (Some (JStr "hello"))] fresh).2
    = [Q2Qc (3 # 2)] ∧
  ¬ is_integer (Q2Qc (3 # 2)).
Proof. split; [reflexivity|discriminate]. Qed.

(** ** The further properties at work *)

(** A session that becomes connected at the read after the 20th sleep:
    [canSend] has seen the connection and still answers no. *)
Lemma canSend_succeeds_within_19_sleeps_witness :
  (∀ i, (i ≤ 19)%nat → connects_after 20 i = false) ∧
  connects_after 20 20 = true ∧
  canSend (connects_after 20) = (false, waiting_lines 1 20) ∧
  (canSend (connects_after 3)).1 = true.
Proof.
  assert (∀ i, (i ≤ 19)%nat → connects_after 20 i = false) as Hfalse.
  { intros i Hi. apply Nat.leb_gt. lia. }
  destruct (canSend_succeeds_within_19_sleeps (connects_after 20)) as (_ & Hlate & _).
  destruct (canSend_succeeds_within_19_sleeps (connects_after 3)) as (Hiff & _).
  split_and!; [exact Hfalse|reflexivity|exact (Hlate Hfalse eq_refl)|].
  apply Hiff. exists 3%nat. split; [lia|reflexivity].
Defined.

Lemma canSend_sleeps_at_most_21_times_witness :
  ∃ sleeps, (sleeps ≤ 21)%nat ∧
    (canSend (connects_after 3)).2 = waiting_lines 1 sleeps ∧
    length (canSend (connects_after 3)).2 = sleeps ∧
    (∀ i, (i < sleeps)%nat → connects_after 3 i = false) ∧
    ((sleeps ≤ 20)%nat → connects_after 3 sleeps = true) ∧
    (canSend (connects_after 3)).1 = bool_decide (sleeps < 20)%nat.
Proof. exact (canSend_sleeps_at_most_21_times (connects_after 3)). Defined.

(** [publish("hello")] on the connected session and its response. *)
Lemma response_undoes_registration_witness :
  0 ≤ cMsgId established ∧
  waitingOperations established
    !! ToPropertyKey (Some (JNum (cMsgId established + 1))) = None ∧
  ToBoolean (Get response "pub") = false ∧
  Get response "cMsgId" = Some (JNum (cMsgId established + 1)) ∧
  waitingOperations
    (on_message (Text response)
       (publish_send AwaitCaller (Some (JStr "hello")) established).1).1.1 =
    waitingOperations established.
Proof.
  assert (0 ≤ cMsgId established) as Hc by discriminate.
  assert (waitingOperations established
    !! ToPropertyKey (Some (JNum (cMsgId established + 1))) = None) as Hfree
    by (vm_compute; reflexivity).
  assert (Get response "cMsgId" = Some (JNum (cMsgId established + 1))) as Hid
    by (vm_compute; reflexivity).
  split_and!; [exact Hc|exact Hfree|reflexivity|exact Hid|].
  exact (proj2 (response_undoes_registration AwaitCaller (Some (JStr "hello"))
                  established response Hc Hfree eq_refl Hid)).
Defined.

(** Two requests of the connected session, answered second first. *)
Lemma responses_in_reverse_order_witness :
  let '(s', es) :=
    run [OSend AwaitCaller (Some (JStr "one")); OSend AwaitCaller (Some (JStr "two"));
         OMessage (Text second_response); OMessage (Text response)] established in
  resolutions es = [(AwaitCaller, second_response); (AwaitCaller, response)] ∧
  waitingOperations s' = waitingOperations established ∧
  cMsgId s' = cMsgId established + 1 + 1.
Proof.
  assert (0 ≤ cMsgId established) as Hc by discriminate.
  assert (Number_toString (cMsgId established + 1)
          ≠ Number_toString (cMsgId established + 1 + 1)) as Hne
    by (vm_compute; discriminate).
  assert (Get response "cMsgId" = Some (JNum (cMsgId established + 1))) as Hid1
    by (vm_compute; reflexivity).
  assert (Get second_response "cMsgId" = Some (JNum (cMsgId established + 1 + 1)))
    as Hid2 by (vm_compute; reflexivity).
  assert (waitingOperations established !! Number_toString (cMsgId established + 1)
          = None) as Hfree1 by (vm_compute; reflexivity).
  assert (waitingOperations established
          !! Number_toString (cMsgId established + 1 + 1) = None) as Hfree2
    by (vm_compute; reflexivity).
  exact (responses_in_reverse_order AwaitCaller (Some (JStr "one")) AwaitCaller
           (Some (JStr "two")) established response second_response
           Hc Hne Hfree1 Hfree2 eq_refl Hid1 eq_refl Hid2).
Defined.

(** The request in flight when the socket closes is still pending after
    the reconnect. *)
Lemma pending_requests_outlive_reconnects_witness :
  is_Some (waitingOperations awaiting !! "3/2") ∧
  Forall not_a_message [OClose; OInitPoll CLOSED; OInitPoll OPEN; OInitSettled] ∧
  is_Some (waitingOperations
             (run [OClose; OInitPoll CLOSED; OInitPoll OPEN; OInitSettled] awaiting).1
           !! "3/2") ∧
  resolutions (run [OClose; OInitPoll CLOSED; OInitPoll OPEN; OInitSettled] awaiting).2
    = [].
Proof.
  assert (is_Some (waitingOperations awaiting !! "3/2")) as Hpending.
  { vm_compute. eauto. }
  assert (Forall not_a_message [OClose; OInitPoll CLOSED; OInitPoll OPEN; OInitSettled])
    as Hquiet by (repeat constructor).
  destruct (pending_requests_outlive_reconnects awaiting "3/2" Hpending) as (Hrun & _).
  destruct (Hrun _ Hquiet) as [Hstill Hnone].
  split_and!; [exact Hpending|exact Hquiet|exact Hstill|exact Hnone].
Defined.

Lemma registry_invariant_witness :
  constructor local_options half = inl fresh ∧
  0 ≤ half ∧ half < 1 ∧
  let s := (run [OInitPoll OPEN; OInitSettled;
                 OPublish AwaitCaller never (Some (JStr "hello"))] fresh).1 in
  clientId s = half ∧
  ∀ key entry, waitingOperations s !! key = Some entry →
    key = Number_toString (p_cMsgId entry) ∧
    p_clientId entry = half ∧
    half < p_cMsgId entry ∧
    p_cMsgId entry ≤ cMsgId s.
Proof.
  assert (0 ≤ half) as H0 by discriminate.
  assert (half < 1) as H1 by reflexivity.
  split_and!; [reflexivity|exact H0|exact H1|].
  exact (registry_invariant local_options half fresh _ eq_refl H0 H1).
Defined.

Lemma configuration_is_kept_witness :
  constructor local_options half = inl fresh ∧
  host subscribed = "localhost:8787" ∧
  clientId subscribed = half.
Proof.
  split; [reflexivity|].
  pose proof (configuration_is_kept local_options half fresh
    [OInitPoll CLOSED; OInitPoll CONNECTING; OInitPoll OPEN; OInitSettled;
     OSubscribe never (Some (JNum 0)) (Some 7%nat)] eq_refl) as (Hhost & _ & _ & _ & Hclient & _).
  split; [|vm_compute; reflexivity]. vm_compute in Hhost |- *. exact Hhost.
Defined.

Lemma init_returns_when_socket_opens_witness :
  [CLOSED; CONNECTING; OPEN] ≠ [] ∧
  (init [CLOSED; CONNECTING; OPEN] fresh).2 = true ∧
  isConnected (init [CLOSED; CONNECTING] fresh).1.1 = false.
Proof.
  split; [discriminate|].
  destruct (init_returns_when_socket_opens [CLOSED; CONNECTING; OPEN] fresh) as [H1 _];
    [discriminate|].
  destruct (init_returns_when_socket_opens [CLOSED; CONNECTING] fresh) as [_ H2];
    [discriminate|].
  split; [rewrite H1|rewrite H2]; vm_compute; reflexivity.
Defined.

(** Error and close both fire for one failure: the second [init] finds the
    socket that the first has opened, and installs the listeners again. *)
Lemma second_init_installs_listeners_again_witness :
  OPEN ∈ [CLOSED; CONNECTING; OPEN] ∧ OPEN ∈ [CONNECTING; OPEN] ∧
  attempts [CONNECTING; OPEN] = 0%nat ∧
  listening ((init [CLOSED; CONNECTING; OPEN] fresh).1.2 ++
             (init [CONNECTING; OPEN] (init [CLOSED; CONNECTING; OPEN] fresh).1.1).1.2)
    = [ws (init [CLOSED; CONNECTING; OPEN] fresh).1.1;
       ws (init [CLOSED; CONNECTING; OPEN] fresh).1.1].
Proof.
  assert (OPEN ∈ [CLOSED; CONNECTING; OPEN]) as H1 by (by repeat constructor).
  assert (OPEN ∈ [CONNECTING; OPEN]) as H2 by (by repeat constructor).
  split_and!; [exact H1|exact H2|reflexivity|].
  exact (proj2 (second_init_installs_listeners_again _ _ fresh H1 H2 eq_refl)).
Defined.

(** Scenario B of the specification: the delivery of frame 1 to the
    subscribed session; and a handler that writes the sequence 99 into the
    message before it acknowledges. *)
Lemma delivery_reaches_handler_untagged_witness :
  listener subscribed = Some 7%nat ∧
  ToBoolean (Get (delivery 1) "pub") = true ∧
  ∃ frame acknowledge,
    on_message (Text (delivery 1)) subscribed =
      (subscribed, [doHandle 7%nat frame acknowledge], Done) ∧
    frame = delivered 1 ∧
    lastSequence (acknowledge frame subscribed).1 = Some (JNum (Qc_of_Z 1)) ∧
    lastSequence (acknowledge (delivered 99) subscribed).1 = Some (JNum (Qc_of_Z 99)).
Proof.
  split_and!; [reflexivity..|].
  destruct (delivery_reaches_handler_untagged (delivery 1) subscribed 7%nat
              eq_refl eq_refl) as (frame & acknowledge & Hstep & _ & _ & Hack & _).
  exists frame, acknowledge. split; [exact Hstep|].
  assert (frame = delivered 1) as Hframe.
  { vm_compute in Hstep. by injection Hstep as ? ?. }
  split; [exact Hframe|]. rewrite !Hack, Hframe. split; reflexivity.
Defined.

Lemma response_id_is_a_property_key_witness :
  ToBoolean (Get spelled_response "pub") = false ∧
  Number_toString (Q2Qc (3 # 2)) ≠ EmptyString ∧
  (on_message (Text spelled_response) awaiting).1.2 =
    [resolved AwaitCaller spelled_response].
Proof.
  assert (Number_toString (Q2Qc (3 # 2)) ≠ EmptyString) as Hprint
    by (vm_compute; discriminate).
  assert (waitingOperations awaiting !! Number_toString (Q2Qc (3 # 2))
          = Some (Pending AwaitCaller (Some (JStr "hello")) (Q2Qc (3 # 2)) half))
    as Hentry by reflexivity.
  split_and!; [reflexivity|exact Hprint|].
  rewrite (response_id_is_a_property_key spelled_response awaiting _
             (Q2Qc (3 # 2)) eq_refl Hentry Hprint (or_introl eq_refl)).
  reflexivity.
Defined.

Lemma second_subscribe_replaces_first_witness :
  ToBoolean (Get (delivery 1) "pub") = true ∧
  handled
    (on_message (Text (delivery 1))
       (subscribe never (Some (JNum 1)) (Some 8%nat) subscribed).1.1).1.2
    = [(8%nat, Delete (delivery 1) "pub")].
Proof.
  split; [reflexivity|].
  pose proof (second_subscribe_replaces_first never (Some (JNum 0)) (Some 7%nat)
                never (Some (JNum 1)) 8%nat established (delivery 1) eq_refl)
    as (_ & _ & _ & H).
  exact H.
Defined.

Lemma own_responses_are_routed_witness :
  constructor local_options half = inl fresh ∧
  0 ≤ half ∧
  ToBoolean (Get response "pub") = false ∧
  (on_message (Text response)
     (run [OInitPoll CLOSED; OInitPoll CONNECTING; OInitPoll OPEN; OInitSettled;
           OPublish AwaitCaller never (Some (JStr "hello"))] fresh).1).1.2
    = [resolved AwaitCaller response].
Proof.
  assert (0 ≤ half) as Hhalf by discriminate.
  split_and!; [reflexivity|exact Hhalf|reflexivity|].
  assert (waitingOperations
            (run [OInitPoll CLOSED; OInitPoll CONNECTING; OInitPoll OPEN; OInitSettled;
                  OPublish AwaitCaller never (Some (JStr "hello"))] fresh).1 !! "3/2"
          = Some (Pending AwaitCaller (Some (JStr "hello")) (Q2Qc (3 # 2)) half))
    as Hentry by (vm_compute; reflexivity).
  rewrite (own_responses_are_routed local_options half fresh _ "3/2" _ response
             eq_refl Hhalf Hentry eq_refl eq_refl).
  reflexivity.
Defined.

(** The bucket of the examples holds [a.txt] and nothing else. *)
Lemma r2_calls_use_the_object_url_witness :
  constructor local_options half = inl fresh ∧
  getObject one_object "a.txt" subscribed = inl (Some (JStr "contents")) ∧
  deleteObject one_object "b.txt" subscribed
    = inr (Error "Request failed with status code 404").
Proof.
  split; [reflexivity|].
  pose proof (r2_calls_use_the_object_url local_options half fresh
    [OInitPoll CLOSED; OInitPoll CONNECTING; OInitPoll OPEN; OInitSettled;
     OSubscribe never (Some (JNum 0)) (Some 7%nat)] one_object "a.txt" "a.txt" eq_refl)
    as (_ & _ & _ & Hget & _).
  pose proof (r2_calls_use_the_object_url local_options half fresh
    [OInitPoll CLOSED; OInitPoll CONNECTING; OInitPoll OPEN; OInitSettled;
     OSubscribe never (Some (JNum 0)) (Some 7%nat)] one_object "b.txt" "b.txt" eq_refl)
    as (_ & _ & _ & _ & _ & Hdelete).
  split.
  - vm_compute in Hget |- *. exact Hget.
  - vm_compute in Hdelete |- *. exact Hdelete.
Defined.

(** A server request that carries [pub: false]. *)
Lemma falsy_pub_is_not_a_delivery_witness :
  let frame := JObj [("pub", JBool false); ("sMsgId", JNum 1)] in
  Get frame "pub" = Some (JBool false) ∧
  ToBoolean (Get frame "cMsgId") = false ∧
  ToBoolean (Get frame "sMsgId") = true ∧
  on_message (Text frame) subscribed = (subscribed, [ws_send SiteEcho frame], Done).
Proof.
  intros frame. split_and!; [reflexivity..|].
  destruct (falsy_pub_is_not_a_delivery frame subscribed (JBool false) eq_refl
              (or_intror (or_introl eq_refl))) as [_ H].
  exact (proj1 (H eq_refl eq_refl)).
Defined.
